(** * AutoHorse: the Streamlit front-end [app.py]

    A shallow embedding of the control logic of [app.py]: the call to the
    analysis webhook ([run_analysis]), the upload handler, the chat-input
    handler and the script they live in, followed by the properties of the
    session state that the specification states about them.

    Conventions.
    - Python values that come out of [response.json()] are modelled by
      [json]; a Python [dict] is a [gmap string json], [None] is [JNull].
    - Text is a Rocq [string] holding the UTF-8 bytes of the Python string;
      the program only concatenates and compares text.
    - [st.session_state] and the calls the script makes to Streamlit and to
      [requests] are threaded through a state-and-exception monad [M]: the
      state is the [world] (session state plus the trace of calls made so
      far), an exception stops the script and leaves the world as it was when
      it was raised. *)

From Stdlib Require Import ZArith String List.
From Stdlib.Strings Require Import Byte.
From Stdlib Require Import Floats.SpecFloat.
From stdpp Require Import gmap strings list fin_maps pretty.

#[local] Set Warnings "-register-all".
#[local] Open Scope string_scope.
#[local] Open Scope list_scope.

(** ** Python values *)

(** What [json.loads] produces: [None], [bool], [int], [float], [str],
    [list] and [dict] with string keys. *)
Inductive json : Type :=
| JNull
| JBool (b : bool)
| JInt (n : Z)
| JFloat (f : spec_float)
| JStr (s : string)
| JArr (l : list json)
| JObj (m : gmap string json).

(** Python truth value testing ([if results:], [if not MAKE_WEBHOOK_URL:]). *)
Definition truthy (v : json) : bool :=
  match v with
  | JNull => false
  | JBool b => b
  | JInt n => negb (n =? 0)%Z
  | JFloat (S754_zero _) => false
  | JFloat _ => true
  | JStr s => negb (String.eqb s "")
  | JArr l => negb (length l =? 0)%nat
  | JObj m => negb (size m =? 0)%nat
  end.

(** [isinstance(v, dict) or isinstance(v, list)] *)
Definition is_dict_or_list (v : json) : bool :=
  match v with
  | JArr _ | JObj _ => true
  | _ => false
  end.

(** ** The world: session state and the trace of external calls *)

(** An entry of [st.session_state.messages]: [{"role": .., "content": ..}]. *)
Record message := Message { role : string; content : json }.

(** The object returned by [st.file_uploader]. *)
Record UploadedFile := {
  name : string;
  getvalue : list byte;
  type : string
}.

(** A [requests.Response], as far as the program looks at it.  [json_body]
    is what [response.json()] does with the body: it returns a value, or
    raises [requests.exceptions.JSONDecodeError] (a [RequestException],
    requests 2.27 and later), or raises a plain [ValueError] (earlier
    versions), or lets any other exception through ([RecursionError] on a
    deeply nested body, [MemoryError], ...), given by its class and text. *)
Inductive json_outcome :=
| JsonOk (v : json)
| JsonRequestError (detail : string)
| JsonValueError (detail : string)
| JsonOtherError (class detail : string).

Record Response := {
  status_code : Z;
  reason : string;
  url : string;
  text : string;
  json_body : json_outcome
}.

(** What [requests.post] does: it raises a [RequestException] (connection
    refused, timeout, ...) before any response exists, or raises an exception
    of another class, or returns a response. *)
Inductive http_outcome :=
| PostRaises (detail : string)
| PostRaisesOther (class detail : string)
| PostReturns (r : Response).

(** The [files=] argument of [requests.post]: part name, then
    (filename, content, content type). *)
Definition multipart := list (string * (string * list byte * string)).

(** Calls the script makes to the outside, in order. *)
Inductive event :=
| StSetPageConfig
| StTitle (s : string)
| StWrite (v : json)
| StJson (v : json)
| StError (s : string)
| StChatMessage (who : string)
| StSpinner (s : string)
| StExpander (s : string)
| StFileUploader (label : string)
| StChatInput (placeholder : string)
| RequestsPost (endpoint : string) (files : multipart) (answer : http_outcome).

Record world := World {
  messages : option (list message);        (* absent until initialised *)
  last_processed_file : option string;     (* absent until a success *)
  trace : list event
}.

(** The secrets of the application as [st.secrets.get("MAKE_WEBHOOK_URL")]
    finds them: no secrets store at all (the call raises), or a store, in
    which the key is present or not. *)
Inductive secrets_store :=
| NoSecrets
| Secrets (webhook_url : option string).

(** What one run of the script is given from outside: the secrets, and the
    answer the webhook gives if it is called. *)
Record env := {
  secrets : secrets_store;
  http : http_outcome
}.

(** The module global [MAKE_WEBHOOK_URL], as the code below line 21 reads
    it. *)
Definition MAKE_WEBHOOK_URL (e : env) : option string :=
  match secrets e with
  | Secrets webhook_url => webhook_url
  | NoSecrets => None
  end.

(** ** Exceptions and the script monad *)

Inductive exn :=
| RequestException (detail : string)
| ValueError (detail : string)
| UnboundLocalError (var : string)
| AttributeError (detail : string)
| RerunException                           (* raised by [st.rerun()] *)
| SecretsNotFound                          (* raised by [st.secrets] without a store *)
| OtherException (class detail : string).  (* any other class *)

Inductive result (A : Type) :=
| Ok (a : A)
| Raise (e : exn).
Arguments Ok {A} a.
Arguments Raise {A} e.

Definition M (A : Type) : Type := world -> result A * world.

Definition ret {A} (a : A) : M A := fun w => (Ok a, w).

Definition bind {A B} (m : M A) (k : A -> M B) : M B :=
  fun w =>
    match m w with
    | (Ok a, w') => k a w'
    | (Raise e, w') => (Raise e, w')
    end.

Definition raise {A} (e : exn) : M A := fun w => (Raise e, w).

Declare Scope script_scope.
Delimit Scope script_scope with script.
Bind Scope script_scope with M.
Notation "x <- m ;; k" := (bind m (fun x => k))
  (at level 100, m at next level, k at level 200, right associativity) : script_scope.
Notation "m ;; k" := (bind m (fun _ => k))
  (at level 100, k at level 200, right associativity) : script_scope.
#[local] Open Scope script_scope.

(** [try: m  except requests.exceptions.RequestException as e: h e], with the
    code after the protected call as continuation [k] {e outside} the
    protection of this handler. *)
Definition try_except {A B} (m : M A) (h : string -> M B) (k : A -> M B) : M B :=
  fun w =>
    match m w with
    | (Ok a, w') => k a w'
    | (Raise (RequestException e), w') => h e w'
    | (Raise e, w') => (Raise e, w')
    end.

Definition emit (e : event) : M unit :=
  fun w => (Ok tt, World (messages w) (last_processed_file w) (trace w ++ [e])).

Definition st_error (s : string) : M unit := emit (StError s).

Definition st_rerun {A} : M A := raise RerunException.

(** [st.session_state.messages.append(m)] *)
Definition append_message (m : message) : M unit :=
  fun w =>
    match messages w with
    | Some l => (Ok tt, World (Some (l ++ [m])) (last_processed_file w) (trace w))
    | None => (Raise (AttributeError "st.session_state has no attribute 'messages'"), w)
    end.

(** [st.session_state.last_processed_file = n] *)
Definition set_last_processed_file (n : string) : M unit :=
  fun w => (Ok tt, World (messages w) (Some n) (trace w)).

(** [type(v).__name__] *)
Definition py_type_name (v : json) : string :=
  match v with
  | JNull => "NoneType"
  | JBool _ => "bool"
  | JInt _ => "int"
  | JFloat _ => "float"
  | JStr _ => "str"
  | JArr _ => "list"
  | JObj _ => "dict"
  end.

(** [v.get(k, d)]: only a [dict] has the method. *)
Definition py_get (v : json) (k : string) (d : json) : M json :=
  match v with
  | JObj m => ret (default d (m !! k))
  | _ => raise (AttributeError
                  ("'" +:+ py_type_name v +:+ "' object has no attribute 'get'"))
  end.

(** ** The [requests] calls *)

Definition requests_post (answer : http_outcome) (endpoint : string)
    (files : multipart) : M Response :=
  emit (RequestsPost endpoint files answer) ;;
  match answer with
  | PostRaises e => raise (RequestException e)
  | PostRaisesOther class e => raise (OtherException class e)
  | PostReturns r => ret r
  end.

(** [Response.raise_for_status]: an [HTTPError] for 4xx and 5xx, with the
    text requests gives it. *)
Definition http_error_msg (r : Response) : option string :=
  if ((400 <=? status_code r) && (status_code r <? 500))%Z then
    Some (pretty (status_code r) +:+ " Client Error: " +:+ reason r
            +:+ " for url: " +:+ url r)
  else if ((500 <=? status_code r) && (status_code r <? 600))%Z then
    Some (pretty (status_code r) +:+ " Server Error: " +:+ reason r
            +:+ " for url: " +:+ url r)
  else None.

Definition raise_for_status (r : Response) : M unit :=
  match http_error_msg r with
  | Some msg => raise (RequestException msg)
  | None => ret tt
  end.

Definition response_json (r : Response) : M json :=
  match json_body r with
  | JsonOk v => ret v
  | JsonRequestError e => raise (RequestException e)
  | JsonValueError e => raise (ValueError e)
  | JsonOtherError class e => raise (OtherException class e)
  end.

(** ** [run_analysis] *)

(** [files = {'file': (uploaded_file.name, uploaded_file.getvalue(),
    uploaded_file.type)}] *)
Definition form (f : UploadedFile) : multipart :=
  [("file", (name f, getvalue f, type f))].

(** Truth value of an optional text ([if not MAKE_WEBHOOK_URL],
    [if prompt := ...]): [None] and the empty string are both false. *)
Definition truthy_text (o : option string) : option string :=
  match o with
  | Some s => if String.eqb s "" then None else Some s
  | None => None
  end.

Definition configured (e : env) : option string :=
  truthy_text (MAKE_WEBHOOK_URL e).

(** The [except] clause.  [response] is the local variable of that name: it
    is bound only if [requests.post] returned. *)
Definition except_RequestException (response : option Response) (e : string) : M json :=
  st_error ("An error occurred while contacting the analysis workflow: " +:+ e) ;;
  match response with
  | Some r => st_error ("Response Body: " +:+ text r) ;; ret JNull
  | None => raise (UnboundLocalError "response")
  end.

(** The body of the [try] is one block in the source; it is split here at
    the assignment to [response], so that the [except] clause is entered with
    [response] unbound from the first statement and bound from the other
    two.  [None] is returned as [JNull]. *)
Definition run_analysis (e : env) (uploaded_file : UploadedFile) : M json :=
  match configured e with
  | None =>
      st_error "Webhook URL is not configured. Please set it in your Streamlit secrets." ;;
      ret JNull
  | Some endpoint =>
      let files := form uploaded_file in
      try_except (requests_post (http e) endpoint files)
        (except_RequestException None)
        (fun response =>
           try_except (raise_for_status response ;; response_json response)
             (except_RequestException (Some response))
             ret)
  end.

(** ** The script *)

Section Script.

(** [str(v)] of a value that is not a [str], as an f-string formats it:
    Python's own, not the program's. *)
Variable py_repr : json -> string.

Definition py_str (v : json) : string :=
  match v with
  | JStr s => s
  | _ => py_repr v
  end.

Definition greeting : message :=
  Message "assistant" (JStr "Hello! Please upload your DRF file to begin.").

Definition header : M unit :=
  emit StSetPageConfig ;;
  emit (StTitle "🐎 Horse Racing AI Assistant") ;;
  emit (StWrite (JStr "Welcome! This tool automates the AI-driven analysis of Brisnet DRF files.")).

(** [MAKE_WEBHOOK_URL = st.secrets.get("MAKE_WEBHOOK_URL")]: the lookup
    raises when there is no secrets store; a missing key gives [None]. *)
Definition read_secrets (e : env) : M unit :=
  match secrets e with
  | Secrets _ => ret tt
  | NoSecrets => raise SecretsNotFound
  end.

(** [if "messages" not in st.session_state: ...] *)
Definition initialize : M unit :=
  fun w =>
    match messages w with
    | Some _ => (Ok tt, w)
    | None => (Ok tt, World (Some [greeting]) (last_processed_file w) (trace w))
    end.

Definition get_messages : M (list message) :=
  fun w =>
    match messages w with
    | Some l => (Ok l, w)
    | None => (Raise (AttributeError "st.session_state has no attribute 'messages'"), w)
    end.

Fixpoint display (l : list message) : M unit :=
  match l with
  | [] => ret tt
  | m :: rest =>
      emit (StChatMessage (role m)) ;;
      (if is_dict_or_list (content m)
       then emit (StJson (content m))
       else emit (StWrite (content m))) ;;
      display rest
  end.

Definition display_messages : M unit :=
  l <- get_messages ;; display l.

Definition file_uploader : M unit :=
  emit (StFileUploader "Choose a DRF file to analyze").

(** [st.session_state.get("last_processed_file") != uploaded_file.name] *)
Definition not_last_processed (n : string) : M bool :=
  fun w =>
    (Ok (match last_processed_file w with
         | Some n' => negb (String.eqb n' n)
         | None => true
         end), w).

(** The block under [if results:], inline in the source. *)
Definition show_results (f : UploadedFile) (results : json) : M unit :=
  data <- py_get results "data" (JObj ∅) ;;
  python_summary <- py_get data "python_summary" (JStr "No summary available.") ;;
  let summary_message := "✅ Analysis Complete! " +:+ py_str python_summary +:+ "." in
  append_message (Message "assistant" (JStr summary_message)) ;;
  emit (StChatMessage "assistant") ;;
  emit (StWrite (JStr "Here is the processed 'Lean' data ready for AI analysis:")) ;;
  emit (StExpander "View Processed Lean Data") ;;
  data' <- py_get results "data" (JObj ∅) ;;
  lean <- py_get data' "lean" (JStr "No lean data found.") ;;
  emit (StJson lean) ;;
  set_last_processed_file (name f) ;;
  st_rerun.

(** The block under [if uploaded_file is not None:]. *)
Definition upload_handler (e : env) (uploaded_file : option UploadedFile) : M unit :=
  match uploaded_file with
  | None => ret tt
  | Some f =>
      fresh <- not_last_processed (name f) ;;
      if fresh : bool then
        emit (StChatMessage "assistant") ;;
        emit (StSpinner ("Processing " +:+ name f +:+ "... This may take a moment.")) ;;
        results <- run_analysis e f ;;
        if truthy results then show_results f results else ret tt
      else ret tt
  end.

(** The two calls that open the handler once the file is taken up. *)
Definition opening (f : UploadedFile) : list event :=
  [StChatMessage "assistant";
   StSpinner ("Processing " +:+ name f +:+ "... This may take a moment.")].

(** What is shown below the summary. *)
Definition lean_display (lean : json) : list event :=
  [StChatMessage "assistant";
   StWrite (JStr "Here is the processed 'Lean' data ready for AI analysis:");
   StExpander "View Processed Lean Data";
   StJson lean].

Definition summary_of (d : gmap string json) : message :=
  Message "assistant"
    (JStr ("✅ Analysis Complete! "
           +:+ py_str (default (JStr "No summary available.") (d !! "python_summary"))
           +:+ ".")).

(** The block [if prompt := st.chat_input(...):]; [prompt] is what the
    widget returns. *)
Definition chat_input_handler (prompt : option string) : M unit :=
  emit (StChatInput "Ask a follow-up question...") ;;
  match truthy_text prompt with
  | Some p =>
      append_message (Message "user" (JStr p)) ;;
      emit (StChatMessage "user") ;;
      emit (StWrite (JStr p)) ;;
      append_message (Message "assistant" (JStr "Follow-up questions are not yet implemented.")) ;;
      st_rerun
  | None => ret tt
  end.

(** One run of [app.py], top to bottom. *)
Definition script (e : env) (uploaded_file : option UploadedFile)
    (prompt : option string) : M unit :=
  header ;;
  read_secrets e ;;
  initialize ;;
  display_messages ;;
  file_uploader ;;
  upload_handler e uploaded_file ;;
  chat_input_handler prompt.

(** *** Sessions: runs of the script, one after the other *)

Record inputs := {
  in_env : env;
  in_file : option UploadedFile;
  in_prompt : option string
}.

Definition run_script (w : world) (i : inputs) : world :=
  snd (script (in_env i) (in_file i) (in_prompt i) w).

Definition session (w : world) (runs : list inputs) : world :=
  fold_left run_script runs w.

End Script.

(** A browser session starts with an empty [st.session_state]. *)
Definition new_session : world := World None None [].

(** ** Observations on a trace *)

(** The outbound HTTP calls of a trace, oldest first. *)
Definition post_of (ev : event) : option (string * multipart) :=
  match ev with
  | RequestsPost endpoint files _ => Some (endpoint, files)
  | _ => None
  end.

Definition posts (t : list event) : list (string * multipart) :=
  omap post_of t.

(** The texts shown with [st.error]. *)
Definition error_of (ev : event) : option string :=
  match ev with
  | StError s => Some s
  | _ => None
  end.

Definition errors (t : list event) : list string :=
  omap error_of t.

(** The code's own notion of a successful submission, read off the answer of
    the webhook: no 4xx/5xx status, a body that decodes to a non-empty
    [dict] whose ["data"], if present, is a [dict] again.  These are the
    answers with which the handler reaches its last statements. *)
Definition accepted (v : json) : bool :=
  match v with
  | JObj m =>
      negb (size m =? 0)%nat &&
      match default (JObj ∅) (m !! "data") with
      | JObj _ => true
      | _ => false
      end
  | _ => false
  end.

Definition succeeded (answer : http_outcome) : bool :=
  match answer with
  | PostReturns r =>
      match http_error_msg r, json_body r with
      | None, JsonOk v => accepted v
      | _, _ => false
      end
  | PostRaises _ | PostRaisesOther _ _ => false
  end.

(** The filename a call carried. *)
Definition filename_of (files : multipart) : option string :=
  match files with
  | (_, (n, _, _)) :: _ => Some n
  | [] => None
  end.

(** The name of the file of the most recent successful submission. *)
Definition note_success (acc : option string) (ev : event) : option string :=
  match ev with
  | RequestsPost _ files answer =>
      if succeeded answer then filename_of files else acc
  | _ => acc
  end.

Definition last_success (t : list event) : option string :=
  fold_left note_success t None.

(** [w] with the events [evs] added to its trace. *)
Definition logged (w : world) (evs : list event) : world :=
  World (messages w) (last_processed_file w) (trace w ++ evs).

(** What [display] shows for a log. *)
Definition rendering (l : list message) : list event :=
  flat_map (fun m =>
              [StChatMessage (role m);
               if is_dict_or_list (content m) then StJson (content m)
               else StWrite (content m)]) l.

(** What the first lines of the script show, before the secrets are read. *)
Definition banner : list event :=
  [StSetPageConfig;
   StTitle "🐎 Horse Racing AI Assistant";
   StWrite (JStr "Welcome! This tool automates the AI-driven analysis of Brisnet DRF files.")].

(** What a run of the script shows before it reaches the upload handler. *)
Definition preamble (l : list message) : list event :=
  [StSetPageConfig;
   StTitle "🐎 Horse Racing AI Assistant";
   StWrite (JStr "Welcome! This tool automates the AI-driven analysis of Brisnet DRF files.")]
  ++ rendering l ++ [StFileUploader "Choose a DRF file to analyze"].

(** [last_processed_file] names the most recent successful submission. *)
Definition consistent (w : world) : Prop :=
  last_processed_file w = last_success (trace w).

(** ** Success as the specification words it

    For comparison with [succeeded]: the specification calls a submission a
    success when the answer is "2xx with valid JSON body". *)
Definition spec_succeeded (answer : http_outcome) : bool :=
  match answer with
  | PostReturns r =>
      (200 <=? status_code r)%Z && (status_code r <? 300)%Z &&
      match json_body r with
      | JsonOk _ => true
      | _ => false
      end
  | PostRaises _ | PostRaisesOther _ _ => false
  end.

Definition spec_note_success (acc : option string) (ev : event) : option string :=
  match ev with
  | RequestsPost _ files answer =>
      if spec_succeeded answer then filename_of files else acc
  | _ => acc
  end.

(** The name of the file of the most recent submission that was a success in
    the specification's sense. *)
Definition spec_last_success (t : list event) : option string :=
  fold_left spec_note_success t None.

(** ** Sample data *)

Definition race1 : UploadedFile :=
  {| name := "race1.drf"; getvalue := ["1"; "7"; ","; "S"; "A"]%byte; type := "application/octet-stream" |}.

Definition race2 : UploadedFile :=
  {| name := "race2.drf"; getvalue := ["2"; "4"; ","; "G"; "P"]%byte; type := "application/octet-stream" |}.

Definition hook : string := "https://hook.example/drf".

(** [{"data": {"python_summary": "3 horses analyzed", "lean": {"a": 1}}}] *)
Definition three_horses : json :=
  JObj {[ "data" :=
            JObj (<[ "python_summary" := JStr "3 horses analyzed" ]>
                    {[ "lean" := JObj {[ "a" := JInt 1 ]} ]}) ]}.

(** [{"data": {"lean": [1]}}]: no summary. *)
Definition lean_only : json :=
  JObj {[ "data" := JObj {[ "lean" := JArr [JInt 1] ]} ]}.

(** A response with the given status and decoded body; its text is not
    looked at on the paths where the body decodes. *)
Definition answer (status : Z) (phrase : string) (v : json) : Response :=
  {| status_code := status; reason := phrase; url := hook;
     text := "(body)"; json_body := JsonOk v |}.

Definition endpoint_answers (a : http_outcome) : env :=
  {| secrets := Secrets (Some hook); http := a |}.

Definition no_endpoint : env :=
  {| secrets := Secrets None; http := PostRaises "unreachable" |}.

(** An application started without any secrets store. *)
Definition no_secrets : env :=
  {| secrets := NoSecrets; http := PostRaises "unreachable" |}.

(** A 200 answer whose body is not JSON, as requests 2.27 and later report
    it. *)
Definition not_json : Response :=
  {| status_code := 200; reason := "OK"; url := hook;
     text := "<html>Accepted</html>";
     json_body := JsonRequestError "Expecting value: line 1 column 1 (char 0)" |}.

(** One run of the script with a file selected and nothing typed. *)
Definition upload (f : UploadedFile) (a : http_outcome) : inputs :=
  {| in_env := endpoint_answers a; in_file := Some f; in_prompt := None |}.

(** A stand-in for Python's [str] on values that are not text. *)
Definition some_repr (v : json) : string := "<value>".

(** The session state right after the greeting has been stored. *)
Definition greeted : world := World (Some [greeting]) None [].

(** ** Further observations *)

(** The world in which a run of the script reaches the upload handler: the
    log exists (seeded with the greeting if it did not) and the preamble has
    been shown. *)
Definition settled (w : world) : world :=
  World (Some (default [greeting] (messages w))) (last_processed_file w)
    (trace w ++ preamble (default [greeting] (messages w))).

(** The outbound call a run of the script is due to make: one, when a file
    is selected that is not the last processed one and the endpoint is
    configured. *)
Definition due_call (w : world) (i : inputs) : list (string * multipart) :=
  match in_file i with
  | Some f =>
      if decide (last_processed_file w = Some (name f)) then []
      else match configured (in_env i) with
           | Some u => [(u, form f)]
           | None => []
           end
  | None => []
  end.

(** Who speaks in a [st.chat_message] call, and what [st.write] or [st.json]
    is given. *)
Definition speaker_of (ev : event) : option string :=
  match ev with
  | StChatMessage who => Some who
  | _ => None
  end.

Definition shown_of (ev : event) : option json :=
  match ev with
  | StWrite v | StJson v => Some v
  | _ => None
  end.

Definition json_of (ev : event) : option json :=
  match ev with
  | StJson v => Some v
  | _ => None
  end.

(** A message as the script itself writes them: a known role and a text. *)
Definition textual (m : message) : Prop :=
  (role m = "assistant" \/ role m = "user") /\ exists s, content m = JStr s.

(** A run of the script with the given answer, file and prompt. *)
Definition interaction (a : http_outcome) (f : option UploadedFile)
    (p : option string) : inputs :=
  {| in_env := endpoint_answers a; in_file := f; in_prompt := p |}.

Ltac run :=
  cbv beta iota zeta delta
    [bind ret raise try_except emit st_error st_rerun append_message
     set_last_processed_file requests_post raise_for_status response_json
     except_RequestException logged messages last_processed_file trace
     fst snd].

(** * Properties *)

(** ** Traces *)

Lemma posts_app (t1 t2 : list event) : posts (t1 ++ t2) = posts t1 ++ posts t2.
Proof. unfold posts. apply omap_app. Qed.

Lemma errors_app (t1 t2 : list event) : errors (t1 ++ t2) = errors t1 ++ errors t2.
Proof. unfold errors. apply omap_app. Qed.

Lemma last_success_app (t1 t2 : list event) :
  last_success (t1 ++ t2) = fold_left note_success t2 (last_success t1).
Proof. unfold last_success. apply fold_left_app. Qed.

Lemma trace_logged (w : world) (evs : list event) :
  trace (logged w evs) = trace w ++ evs.
Proof. reflexivity. Qed.

Lemma logged_logged (w : world) (evs1 evs2 : list event) :
  logged (logged w evs1) evs2 = logged w (evs1 ++ evs2).
Proof. unfold logged. simpl. by rewrite app_assoc. Qed.

(** ** Status codes *)

Lemma http_error_msg_none (r : Response) :
  http_error_msg r = None <-> ¬ (400 <= status_code r < 600)%Z.
Proof.
  unfold http_error_msg.
  destruct (Z.leb_spec 400 (status_code r)), (Z.ltb_spec (status_code r) 500),
    (Z.leb_spec 500 (status_code r)), (Z.ltb_spec (status_code r) 600);
    simpl; split; intros; try discriminate; try lia; reflexivity.
Qed.

Lemma http_error_msg_2xx (r : Response) :
  (200 <= status_code r < 300)%Z -> http_error_msg r = None.
Proof. intros H. apply http_error_msg_none. lia. Qed.

Lemma http_error_msg_error (r : Response) :
  (400 <= status_code r < 600)%Z -> exists msg, http_error_msg r = Some msg.
Proof.
  intros H. destruct (http_error_msg r) as [msg|] eqn:E; [by exists msg|].
  apply http_error_msg_none in E. lia.
Qed.

(** ** Truth values *)

Lemma truthy_text_Some (s : string) : s <> "" -> truthy_text (Some s) = Some s.
Proof.
  intros H. unfold truthy_text.
  destruct (String.eqb_spec s ""); [contradiction | reflexivity].
Qed.

Lemma size_lookup_Some (m : gmap string json) (k : string) (v : json) :
  m !! k = Some v -> (size m =? 0)%nat = false.
Proof.
  intros H. apply Nat.eqb_neq. intros Hs.
  apply map_size_empty_iff in Hs. subst m. by rewrite lookup_empty in H.
Qed.

(** ** [run_analysis], path by path *)

Lemma run_analysis_not_configured (e : env) (f : UploadedFile) (w : world) :
  configured e = None ->
  run_analysis e f w =
    (Ok JNull,
     logged w [StError "Webhook URL is not configured. Please set it in your Streamlit secrets."]).
Proof. intros H. unfold run_analysis. rewrite H. reflexivity. Qed.

Lemma run_analysis_post_raises (e : env) (f : UploadedFile) (w : world)
    (u detail : string) :
  configured e = Some u -> http e = PostRaises detail ->
  run_analysis e f w =
    (Raise (UnboundLocalError "response"),
     logged w [RequestsPost u (form f) (PostRaises detail);
               StError ("An error occurred while contacting the analysis workflow: " +:+ detail)]).
Proof.
  intros Hu Hh. unfold run_analysis. rewrite Hu, Hh. run.
  by rewrite <- app_assoc.
Qed.

Lemma run_analysis_http_error (e : env) (f : UploadedFile) (w : world)
    (u msg : string) (r : Response) :
  configured e = Some u -> http e = PostReturns r -> http_error_msg r = Some msg ->
  run_analysis e f w =
    (Ok JNull,
     logged w [RequestsPost u (form f) (PostReturns r);
               StError ("An error occurred while contacting the analysis workflow: " +:+ msg);
               StError ("Response Body: " +:+ text r)]).
Proof.
  intros Hu Hh Hs. unfold run_analysis. rewrite Hu, Hh. run. rewrite Hs. run.
  by rewrite <- !app_assoc.
Qed.

Lemma run_analysis_json (e : env) (f : UploadedFile) (w : world)
    (u : string) (r : Response) (v : json) :
  configured e = Some u -> http e = PostReturns r -> http_error_msg r = None ->
  json_body r = JsonOk v ->
  run_analysis e f w = (Ok v, logged w [RequestsPost u (form f) (PostReturns r)]).
Proof.
  intros Hu Hh Hs Hj. unfold run_analysis. rewrite Hu, Hh. run. rewrite Hs. run.
  rewrite Hj. reflexivity.
Qed.

Lemma run_analysis_json_request_error (e : env) (f : UploadedFile) (w : world)
    (u detail : string) (r : Response) :
  configured e = Some u -> http e = PostReturns r -> http_error_msg r = None ->
  json_body r = JsonRequestError detail ->
  run_analysis e f w =
    (Ok JNull,
     logged w [RequestsPost u (form f) (PostReturns r);
               StError ("An error occurred while contacting the analysis workflow: " +:+ detail);
               StError ("Response Body: " +:+ text r)]).
Proof.
  intros Hu Hh Hs Hj. unfold run_analysis. rewrite Hu, Hh. run. rewrite Hs. run.
  rewrite Hj. run. by rewrite <- !app_assoc.
Qed.

Lemma run_analysis_json_value_error (e : env) (f : UploadedFile) (w : world)
    (u detail : string) (r : Response) :
  configured e = Some u -> http e = PostReturns r -> http_error_msg r = None ->
  json_body r = JsonValueError detail ->
  run_analysis e f w =
    (Raise (ValueError detail), logged w [RequestsPost u (form f) (PostReturns r)]).
Proof.
  intros Hu Hh Hs Hj. unfold run_analysis. rewrite Hu, Hh. run. rewrite Hs. run.
  rewrite Hj. reflexivity.
Qed.

Lemma run_analysis_json_other_error (e : env) (f : UploadedFile) (w : world)
    (u class detail : string) (r : Response) :
  configured e = Some u -> http e = PostReturns r -> http_error_msg r = None ->
  json_body r = JsonOtherError class detail ->
  run_analysis e f w =
    (Raise (OtherException class detail),
     logged w [RequestsPost u (form f) (PostReturns r)]).
Proof.
  intros Hu Hh Hs Hj. unfold run_analysis. rewrite Hu, Hh. run. rewrite Hs. run.
  rewrite Hj. reflexivity.
Qed.

Lemma run_analysis_post_raises_other (e : env) (f : UploadedFile) (w : world)
    (u class detail : string) :
  configured e = Some u -> http e = PostRaisesOther class detail ->
  run_analysis e f w =
    (Raise (OtherException class detail),
     logged w [RequestsPost u (form f) (PostRaisesOther class detail)]).
Proof.
  intros Hu Hh. unfold run_analysis. rewrite Hu, Hh. reflexivity.
Qed.

(** ** The upload handler, path by path *)

Section Handlers.

Variable py_repr : json -> string.

Lemma not_last_processed_fresh (n : string) (w : world) :
  last_processed_file w <> Some n -> not_last_processed n w = (Ok true, w).
Proof.
  intros H. unfold not_last_processed.
  destruct (last_processed_file w) as [n'|]; [|reflexivity].
  destruct (String.eqb_spec n' n); [congruence | reflexivity].
Qed.

Lemma not_last_processed_same (n : string) (w : world) :
  last_processed_file w = Some n -> not_last_processed n w = (Ok false, w).
Proof.
  intros H. unfold not_last_processed. rewrite H.
  by rewrite String.eqb_refl.
Qed.

Lemma show_results_accepted (f : UploadedFile) (w : world)
    (l : list message) (m d : gmap string json) :
  messages w = Some l ->
  default (JObj ∅) (m !! "data") = JObj d ->
  show_results py_repr f (JObj m) w =
    (Raise RerunException,
     World (Some (l ++ [summary_of py_repr d])) (Some (name f))
       (trace w ++ lean_display (default (JStr "No lean data found.") (d !! "lean")))).
Proof.
  intros Hl Hd. destruct w as [ms lp tr]. simpl in Hl. subst ms.
  unfold show_results, py_get. rewrite Hd. run.
  unfold lean_display. by rewrite <- !app_assoc.
Qed.

Lemma show_results_rejected (f : UploadedFile) (w : world) (v : json) :
  truthy v = true -> accepted v = false ->
  exists detail, show_results py_repr f v w = (Raise (AttributeError detail), w).
Proof.
  intros Ht Ha. unfold show_results, py_get.
  destruct v as [| | | | | |m]; try (eexists; reflexivity).
  simpl in Ht, Ha. rewrite Ht in Ha. simpl in Ha.
  destruct (default (JObj ∅) (m !! "data")); try discriminate;
    eexists; reflexivity.
Qed.

Lemma upload_handler_none (e : env) (w : world) :
  upload_handler py_repr e None w = (Ok tt, w).
Proof. reflexivity. Qed.

Lemma upload_handler_skip (e : env) (f : UploadedFile) (w : world) :
  last_processed_file w = Some (name f) ->
  upload_handler py_repr e (Some f) w = (Ok tt, w).
Proof.
  intros H. unfold upload_handler, bind.
  by rewrite (not_last_processed_same _ _ H).
Qed.

(** Once the file is taken up, the handler is [run_analysis] followed by
    the test on its result. *)
Lemma upload_handler_fresh (e : env) (f : UploadedFile) (w : world) :
  last_processed_file w <> Some (name f) ->
  upload_handler py_repr e (Some f) w =
    (results <- run_analysis e f ;;
     if truthy results then show_results py_repr f results else ret tt)
      (logged w (opening f)).
Proof.
  intros H. unfold upload_handler.
  unfold bind at 1. rewrite (not_last_processed_fresh _ _ H).
  unfold bind at 1. unfold emit at 1. unfold bind at 1. unfold emit at 1.
  unfold logged, opening. simpl. by rewrite <- app_assoc.
Qed.

(** The success path. *)
Lemma upload_handler_success (e : env) (f : UploadedFile) (w : world)
    (l : list message) (u : string) (r : Response) (m d : gmap string json) :
  messages w = Some l ->
  last_processed_file w <> Some (name f) ->
  configured e = Some u -> http e = PostReturns r ->
  http_error_msg r = None -> json_body r = JsonOk (JObj m) ->
  (size m =? 0)%nat = false ->
  default (JObj ∅) (m !! "data") = JObj d ->
  upload_handler py_repr e (Some f) w =
    (Raise RerunException,
     World (Some (l ++ [summary_of py_repr d])) (Some (name f))
       (trace w ++ opening f ++ [RequestsPost u (form f) (PostReturns r)]
          ++ lean_display (default (JStr "No lean data found.") (d !! "lean")))).
Proof.
  intros Hl Hf Hu Hh Hs Hj Hm Hd.
  rewrite (upload_handler_fresh _ _ _ Hf). unfold bind.
  rewrite (run_analysis_json _ _ _ _ _ _ Hu Hh Hs Hj).
  assert (Ht : truthy (JObj m) = true) by (unfold truthy; by rewrite Hm).
  rewrite Ht.
  rewrite (show_results_accepted f _ l m d); [|exact Hl|exact Hd].
  simpl. by rewrite <- !app_assoc.
Qed.

(** Every other path leaves the session state alone: the handler only
    adds to the trace. *)
Lemma upload_handler_no_success (e : env) (f : UploadedFile) (w : world) :
  last_processed_file w <> Some (name f) ->
  succeeded (http e) = false \/ configured e = None ->
  exists res evs,
    upload_handler py_repr e (Some f) w = (res, logged w (opening f ++ evs))
    /\ posts evs = match configured e with
                   | Some u => [(u, form f)]
                   | None => []
                   end
    /\ (forall acc, fold_left note_success evs acc = acc).
Proof.
  intros Hf Hno.
  rewrite (upload_handler_fresh _ _ _ Hf). unfold bind.
  destruct (configured e) as [u|] eqn:Hu.
  2:{ rewrite (run_analysis_not_configured _ _ _ Hu). simpl.
      do 2 eexists. rewrite logged_logged. split; [reflexivity|]. by split. }
  destruct Hno as [Hno|Hno]; [|discriminate].
  destruct (http e) as [detail|class detail|r] eqn:Hh.
  { rewrite (run_analysis_post_raises _ _ _ _ _ Hu Hh).
    do 2 eexists. rewrite logged_logged. split; [reflexivity|]. by split. }
  { rewrite (run_analysis_post_raises_other _ _ _ _ _ _ Hu Hh).
    do 2 eexists. rewrite logged_logged. split; [reflexivity|]. by split. }
  destruct (http_error_msg r) as [msg|] eqn:Hs.
  { rewrite (run_analysis_http_error _ _ _ _ _ _ Hu Hh Hs). simpl.
    do 2 eexists. rewrite logged_logged. split; [reflexivity|].
    split; [reflexivity|]. intros acc. simpl. by rewrite Hs. }
  assert (Hacc : forall acc,
    fold_left note_success [RequestsPost u (form f) (PostReturns r)] acc = acc).
  { intros acc. simpl. simpl in Hno. by rewrite Hno. }
  destruct (json_body r) as [v|detail|detail|class detail] eqn:Hj.
  - rewrite (run_analysis_json _ _ _ _ _ _ Hu Hh Hs Hj).
    simpl in Hno. rewrite Hs, Hj in Hno.
    destruct (truthy v) eqn:Ht.
    + destruct (show_results_rejected f
                  (logged (logged w (opening f)) [RequestsPost u (form f) (PostReturns r)])
                  v Ht Hno) as [detail ->].
      do 2 eexists. rewrite logged_logged. split; [reflexivity|]. by split.
    + simpl. do 2 eexists. rewrite logged_logged. split; [reflexivity|]. by split.
  - rewrite (run_analysis_json_request_error _ _ _ _ _ _ Hu Hh Hs Hj). simpl.
    do 2 eexists. rewrite logged_logged. split; [reflexivity|].
    split; [reflexivity|]. intros acc. simpl. by rewrite Hs, Hj.
  - rewrite (run_analysis_json_value_error _ _ _ _ _ _ Hu Hh Hs Hj).
    do 2 eexists. rewrite logged_logged. split; [reflexivity|]. by split.
  - rewrite (run_analysis_json_other_error _ _ _ _ _ _ _ Hu Hh Hs Hj).
    do 2 eexists. rewrite logged_logged. split; [reflexivity|]. by split.
Qed.

Lemma succeeded_inv (a : http_outcome) :
  succeeded a = true ->
  exists r m d,
    a = PostReturns r /\ http_error_msg r = None /\ json_body r = JsonOk (JObj m)
    /\ (size m =? 0)%nat = false /\ default (JObj ∅) (m !! "data") = JObj d.
Proof.
  destruct a as [detail|class detail|r]; simpl; [discriminate|discriminate|].
  destruct (http_error_msg r) eqn:Hs; [discriminate|].
  destruct (json_body r) as [v| | |] eqn:Hj; try discriminate.
  destruct v as [| | | | | |m]; simpl; try discriminate.
  intros [Hm Hd]%andb_prop.
  destruct (default (JObj ∅) (m !! "data")) as [| | | | | |d] eqn:Hdata;
    try discriminate.
  exists r, m, d. repeat split; try done.
  by destruct (size m =? 0)%nat.
Qed.

(** Whatever the result, [show_results] makes no outbound call, and it
    either completes (the file becomes the last processed one) or stops
    before it has changed anything. *)
Lemma show_results_cases (f : UploadedFile) (v : json) (w : world) :
  (exists l m d,
      messages w = Some l /\ v = JObj m /\ default (JObj ∅) (m !! "data") = JObj d
      /\ show_results py_repr f v w =
           (Raise RerunException,
            World (Some (l ++ [summary_of py_repr d])) (Some (name f))
              (trace w ++ lean_display (default (JStr "No lean data found.") (d !! "lean")))))
  \/ (exists detail, show_results py_repr f v w = (Raise (AttributeError detail), w)).
Proof.
  destruct v as [| | | | | |m]; try (right; eexists; reflexivity).
  destruct (default (JObj ∅) (m !! "data")) as [| | | | | |d] eqn:Hd;
    try (right; unfold show_results, py_get; rewrite Hd; eexists; reflexivity).
  destruct (messages w) as [l|] eqn:Hl.
  - left. exists l, m, d. repeat split; try done.
    by apply show_results_accepted.
  - right. unfold show_results, py_get. rewrite Hd. run.
    destruct w as [ms lp tr]. simpl in Hl. subst ms. eexists; reflexivity.
Qed.

(** On every path of the handler for a file that is taken up: the trace
    grows by the opening and by at most one outbound call, made exactly
    when the endpoint is configured, and [last_processed_file] is kept or
    becomes the name of the file. *)
Lemma upload_handler_trace (e : env) (f : UploadedFile) (w : world) :
  last_processed_file w <> Some (name f) ->
  exists res ms lp evs,
    upload_handler py_repr e (Some f) w = (res, World ms lp (trace w ++ opening f ++ evs))
    /\ posts evs = match configured e with
                   | Some u => [(u, form f)]
                   | None => []
                   end
    /\ (lp = last_processed_file w \/ lp = Some (name f)).
Proof.
  intros Hf.
  destruct (succeeded (http e)) eqn:Hok; [destruct (configured e) as [u|] eqn:Hu|].
  - destruct (succeeded_inv _ Hok) as (r & m & d & Hh & Hs & Hj & Hm & Hd).
    rewrite (upload_handler_fresh _ _ _ Hf). unfold bind.
    rewrite (run_analysis_json _ _ _ _ _ _ Hu Hh Hs Hj).
    assert (Ht : truthy (JObj m) = true) by (unfold truthy; by rewrite Hm).
    rewrite Ht.
    destruct (show_results_cases f (JObj m)
                (logged (logged w (opening f)) [RequestsPost u (form f) (PostReturns r)]))
      as [(l & m' & d' & _ & _ & _ & ->)|[detail ->]].
    + do 4 eexists. split; [|split; [|by right]].
      * simpl. rewrite <- !app_assoc. reflexivity.
      * rewrite posts_app. reflexivity.
    + do 4 eexists. split; [|split; [|by left]].
      * unfold logged. simpl. rewrite <- !app_assoc. reflexivity.
      * reflexivity.
  - destruct (upload_handler_no_success e f w Hf (or_intror Hu))
      as (res & evs & -> & Hp & _).
    do 4 eexists. split; [reflexivity|]. rewrite Hu in Hp. split; [done|by left].
  - destruct (upload_handler_no_success e f w Hf (or_introl Hok))
      as (res & evs & -> & Hp & _).
    do 4 eexists. split; [reflexivity|]. split; [done|by left].
Qed.

(** The outbound calls of one run of the handler. *)
Lemma upload_handler_posts (e : env) (f : UploadedFile) (w : world) :
  last_processed_file w <> Some (name f) ->
  posts (trace (snd (upload_handler py_repr e (Some f) w))) =
    posts (trace w) ++ match configured e with
                       | Some u => [(u, form f)]
                       | None => []
                       end.
Proof.
  intros Hf.
  destruct (upload_handler_trace e f w Hf) as (res & ms & lp & evs & -> & Hp & _).
  cbn [snd trace]. rewrite !posts_app, Hp. reflexivity.
Qed.

End Handlers.

(** ** The chat-input handler and the whole script *)

Lemma chat_input_handler_prompt (p : string) (w : world) (l : list message) :
  p <> "" -> messages w = Some l ->
  chat_input_handler (Some p) w =
    (Raise RerunException,
     World (Some (l ++ [Message "user" (JStr p);
                        Message "assistant" (JStr "Follow-up questions are not yet implemented.")]))
       (last_processed_file w)
       (trace w ++ [StChatInput "Ask a follow-up question...";
                    StChatMessage "user"; StWrite (JStr p)])).
Proof.
  intros Hp Hl. destruct w as [ms lp tr]. simpl in Hl. subst ms.
  unfold chat_input_handler. rewrite (truthy_text_Some _ Hp). run.
  by rewrite <- !app_assoc.
Qed.

Lemma chat_input_handler_idle (p : option string) (w : world) :
  truthy_text p = None ->
  chat_input_handler p w = (Ok tt, logged w [StChatInput "Ask a follow-up question..."]).
Proof. intros Hp. unfold chat_input_handler. rewrite Hp. reflexivity. Qed.

(** The handler never touches [last_processed_file], and what it adds to the
    trace holds no outbound call. *)
Lemma chat_input_handler_trace (p : option string) (w : world) :
  exists res ms evs,
    chat_input_handler p w = (res, World ms (last_processed_file w) (trace w ++ evs))
    /\ Forall (fun ev => post_of ev = None) evs.
Proof.
  destruct (truthy_text p) as [s|] eqn:Hp.
  - destruct w as [[l|] lp tr]; unfold chat_input_handler; rewrite Hp; run.
    + do 3 eexists. split; [by rewrite <- !app_assoc|].
      repeat constructor.
    + do 3 eexists. split; [reflexivity|]. repeat constructor.
  - rewrite (chat_input_handler_idle _ _ Hp).
    do 3 eexists. split; [reflexivity|]. repeat constructor.
Qed.

Lemma quiet_posts (evs : list event) :
  Forall (fun ev => post_of ev = None) evs -> posts evs = [].
Proof.
  induction 1 as [|ev evs Hev _ IH]; [reflexivity|].
  unfold posts in *. simpl. by rewrite Hev.
Qed.

Lemma quiet_last_success (evs : list event) (acc : option string) :
  Forall (fun ev => post_of ev = None) evs -> fold_left note_success evs acc = acc.
Proof.
  induction 1 as [|ev evs Hev _ IH]; [reflexivity|].
  simpl. destruct ev; try discriminate; exact IH.
Qed.

Lemma rendering_quiet (l : list message) :
  Forall (fun ev => post_of ev = None) (rendering l).
Proof.
  induction l as [|m l IH]; [constructor|].
  simpl. constructor; [reflexivity|].
  constructor; [by destruct (is_dict_or_list (content m))|exact IH].
Qed.

Lemma preamble_quiet (l : list message) :
  Forall (fun ev => post_of ev = None) (preamble l).
Proof.
  unfold preamble. repeat (constructor; [reflexivity|]).
  apply Forall_app. split; [apply rendering_quiet|]. repeat constructor.
Qed.

Lemma display_spec (l : list message) (w : world) :
  display l w = (Ok tt, logged w (rendering l)).
Proof.
  revert w. induction l as [|m l IH]; intros w.
  - unfold logged. simpl. rewrite app_nil_r. by destruct w.
  - simpl display. unfold bind at 1. unfold emit at 1.
    unfold bind at 1.
    assert (Hstep : forall w',
      (if is_dict_or_list (content m) then emit (StJson (content m))
       else emit (StWrite (content m))) w' =
      (Ok tt, logged w' [if is_dict_or_list (content m) then StJson (content m)
                         else StWrite (content m)])).
    { intros w'. by destruct (is_dict_or_list (content m)). }
    rewrite Hstep, IH. unfold logged. simpl. by rewrite <- !app_assoc.
Qed.

(** A run of the script is its preamble, which settles the message log,
    followed by the two handlers. *)
Lemma script_spec (py_repr : json -> string) (e : env)
    (uploaded_file : option UploadedFile) (prompt : option string) (w : world) :
  secrets e <> NoSecrets ->
  script py_repr e uploaded_file prompt w =
    (upload_handler py_repr e uploaded_file ;; chat_input_handler prompt)
      (World (Some (default [greeting] (messages w))) (last_processed_file w)
         (trace w ++ preamble (default [greeting] (messages w)))).
Proof.
  intros Hs.
  unfold script, header, file_uploader, display_messages, read_secrets.
  destruct (secrets e) as [|url]; [done|].
  destruct w as [[l|] lp tr]; run; unfold initialize, get_messages; run;
    rewrite display_spec; run; unfold preamble; simpl;
    by rewrite <- !app_assoc.
Qed.

(** Without a secrets store the script stops at the lookup, after its first
    lines and before it has looked at the session state. *)
Lemma script_no_secrets (py_repr : json -> string) (e : env)
    (uploaded_file : option UploadedFile) (prompt : option string) (w : world) :
  secrets e = NoSecrets ->
  script py_repr e uploaded_file prompt w = (Raise SecretsNotFound, logged w banner).
Proof.
  intros Hs. unfold script, header, read_secrets. rewrite Hs. run.
  unfold banner. by rewrite <- !app_assoc.
Qed.

Lemma banner_quiet : Forall (fun ev => post_of ev = None) banner.
Proof. repeat constructor. Qed.

Lemma configured_secrets (e : env) (u : string) :
  configured e = Some u -> secrets e <> NoSecrets.
Proof.
  unfold configured, MAKE_WEBHOOK_URL. by destruct (secrets e).
Qed.

(** ** Keeping [last_processed_file] consistent with the trace *)

Section Consistency.

Variable py_repr : json -> string.

Lemma consistent_logged_quiet (w : world) (evs : list event) :
  Forall (fun ev => post_of ev = None) evs ->
  consistent w -> consistent (logged w evs).
Proof.
  unfold consistent. intros Hq Hw. simpl.
  by rewrite last_success_app, quiet_last_success.
Qed.

Lemma opening_quiet (f : UploadedFile) :
  Forall (fun ev => post_of ev = None) (opening f).
Proof. repeat constructor. Qed.

Lemma lean_display_quiet (v : json) :
  Forall (fun ev => post_of ev = None) (lean_display v).
Proof. repeat constructor. Qed.

(** The handler changes [last_processed_file] only on its success path:
    the endpoint is configured, the answer is a success and the file was
    not the last processed one. *)
Lemma upload_handler_assigns (e : env) (uploaded_file : option UploadedFile)
    (w : world) :
  last_processed_file (snd (upload_handler py_repr e uploaded_file w))
    = last_processed_file w
  \/ exists f u,
       uploaded_file = Some f /\ last_processed_file w <> Some (name f)
       /\ configured e = Some u /\ succeeded (http e) = true
       /\ last_processed_file (snd (upload_handler py_repr e uploaded_file w))
          = Some (name f).
Proof.
  destruct uploaded_file as [f|]; [|by left].
  destruct (decide (last_processed_file w = Some (name f))) as [Hsame|Hf].
  { left. by rewrite (upload_handler_skip _ _ _ _ Hsame). }
  destruct (succeeded (http e)) eqn:Hok; [destruct (configured e) as [u|] eqn:Hu|].
  - destruct (upload_handler_trace py_repr e f w Hf)
      as (res & ms & lp & evs & Heq & _ & [Hlp|Hlp]).
    + left. by rewrite Heq.
    + right. exists f, u. by rewrite Heq.
  - left. destruct (upload_handler_no_success py_repr e f w Hf (or_intror Hu))
      as (res & evs & -> & _). reflexivity.
  - left. destruct (upload_handler_no_success py_repr e f w Hf (or_introl Hok))
      as (res & evs & -> & _). reflexivity.
Qed.

Lemma upload_handler_consistent (e : env) (uploaded_file : option UploadedFile)
    (w : world) (l : list message) :
  messages w = Some l -> consistent w ->
  consistent (snd (upload_handler py_repr e uploaded_file w)).
Proof.
  intros Hl Hw.
  destruct uploaded_file as [f|]; [|exact Hw].
  destruct (decide (last_processed_file w = Some (name f))) as [Hsame|Hf].
  { by rewrite (upload_handler_skip _ _ _ _ Hsame). }
  destruct (succeeded (http e)) eqn:Hok; [destruct (configured e) as [u|] eqn:Hu|].
  - destruct (succeeded_inv _ Hok) as (r & m & d & Hh & Hs & Hj & Hm & Hd).
    rewrite (upload_handler_success py_repr e f w l u r m d Hl Hf Hu Hh Hs Hj Hm Hd).
    unfold consistent. cbn [snd last_processed_file trace].
    rewrite last_success_app, !fold_left_app.
    rewrite (quiet_last_success _ _ (opening_quiet f)).
    rewrite (quiet_last_success _ _ (lean_display_quiet _)).
    rewrite Hh in Hok. cbn [fold_left note_success]. by rewrite Hok.
  - destruct (upload_handler_no_success py_repr e f w Hf (or_intror Hu))
      as (res & evs & -> & _ & Hq).
    unfold consistent in *. cbn [snd logged last_processed_file trace].
    rewrite last_success_app, fold_left_app, Hq.
    by rewrite (quiet_last_success _ _ (opening_quiet f)).
  - destruct (upload_handler_no_success py_repr e f w Hf (or_introl Hok))
      as (res & evs & -> & _ & Hq).
    unfold consistent in *. cbn [snd logged last_processed_file trace].
    rewrite last_success_app, fold_left_app, Hq.
    by rewrite (quiet_last_success _ _ (opening_quiet f)).
Qed.

Lemma chat_input_handler_consistent (p : option string) (w : world) :
  consistent w -> consistent (snd (chat_input_handler p w)).
Proof.
  intros Hw. destruct (chat_input_handler_trace p w) as (res & ms & evs & -> & Hq).
  unfold consistent in *. cbn [snd last_processed_file trace].
  by rewrite last_success_app, quiet_last_success.
Qed.

Lemma run_script_consistent (w : world) (i : inputs) :
  consistent w -> consistent (run_script py_repr w i).
Proof.
  intros Hw. unfold run_script.
  destruct (secrets (in_env i)) as [|url] eqn:Hsec.
  { rewrite (script_no_secrets _ _ _ _ _ Hsec).
    apply (consistent_logged_quiet w _ banner_quiet Hw). }
  assert (Hs : secrets (in_env i) <> NoSecrets) by (rewrite Hsec; discriminate).
  rewrite (script_spec _ _ _ _ _ Hs). unfold bind.
  set (w0 := World (Some (default [greeting] (messages w))) (last_processed_file w)
               (trace w ++ preamble (default [greeting] (messages w)))).
  assert (H0 : consistent w0).
  { apply (consistent_logged_quiet w _ (preamble_quiet _) Hw). }
  pose proof (upload_handler_consistent (in_env i) (in_file i) w0 _ eq_refl H0) as H1.
  destruct (upload_handler py_repr (in_env i) (in_file i) w0) as [[[]|ex] w1];
    simpl in H1 |- *; [|exact H1].
  by apply chat_input_handler_consistent.
Qed.

Lemma session_consistent (w : world) (runs : list inputs) :
  consistent w -> consistent (session py_repr w runs).
Proof.
  revert w. induction runs as [|i runs IH]; intros w Hw; [exact Hw|].
  simpl. apply IH. by apply run_script_consistent.
Qed.

End Consistency.

(** * The claims of the specification *)

Section Claims.

Variable py_repr : json -> string.

(** C1, as the code has it: a successful submission whose 2xx answer is
    [{"data": {"python_summary": "3 horses analyzed", "lean": {"a": 1}}}]
    adds exactly one message to the log, the assistant message
    ["✅ Analysis Complete! 3 horses analyzed."]; the lean payload
    [{"a": 1}] is shown once with [st.json] during that run and is not
    added to the log; [last_processed_file] becomes the name of the file,
    and the run ends by asking for a rerun. *)
Theorem success_logs_summary_and_shows_lean (e : env) (f : UploadedFile)
    (w : world) (l : list message) (u : string) (r : Response) :
  messages w = Some l ->
  last_processed_file w <> Some (name f) ->
  configured e = Some u ->
  http e = PostReturns r ->
  (200 <= status_code r < 300)%Z ->
  json_body r = JsonOk three_horses ->
  fst (upload_handler py_repr e (Some f) w) = Raise RerunException
  /\ messages (snd (upload_handler py_repr e (Some f) w))
     = Some (l ++ [Message "assistant" (JStr "✅ Analysis Complete! 3 horses analyzed.")])
  /\ last_processed_file (snd (upload_handler py_repr e (Some f) w)) = Some (name f)
  /\ trace (snd (upload_handler py_repr e (Some f) w))
     = trace w ++ opening f ++ [RequestsPost u (form f) (PostReturns r)]
         ++ lean_display (JObj {[ "a" := JInt 1 ]}).
Proof.
  intros Hl Hf Hu Hh Hs Hj.
  rewrite (upload_handler_success py_repr e f w l u r
             {[ "data" := JObj (<[ "python_summary" := JStr "3 horses analyzed" ]>
                                  {[ "lean" := JObj {[ "a" := JInt 1 ]} ]}) ]}
             (<[ "python_summary" := JStr "3 horses analyzed" ]>
                {[ "lean" := JObj {[ "a" := JInt 1 ]} ]})
             Hl Hf Hu Hh (http_error_msg_2xx r Hs) Hj);
    [|reflexivity|reflexivity].
  repeat split.
Qed.

(** C2, as the code has it: a submission that ends in a transport failure
    ([requests.post] raises) or in an HTTP error status (4xx or 5xx) appends
    no message and leaves [last_processed_file] unchanged, so that
    submitting a file of the same name again makes a new outbound call. *)
Theorem failed_submission_can_be_retried (e : env) (f : UploadedFile)
    (w : world) (u : string) :
  last_processed_file w <> Some (name f) ->
  configured e = Some u ->
  ((exists detail, http e = PostRaises detail)
   \/ (exists r, http e = PostReturns r /\ (400 <= status_code r < 600)%Z)) ->
  messages (snd (upload_handler py_repr e (Some f) w)) = messages w
  /\ last_processed_file (snd (upload_handler py_repr e (Some f) w))
     = last_processed_file w
  /\ posts (trace (snd (upload_handler py_repr e (Some f) w)))
     = posts (trace w) ++ [(u, form f)]
  /\ forall (e' : env) (f' : UploadedFile) (u' : string),
       name f' = name f -> configured e' = Some u' ->
       posts (trace (snd (upload_handler py_repr e' (Some f')
                            (snd (upload_handler py_repr e (Some f) w)))))
       = posts (trace w) ++ [(u, form f); (u', form f')].
Proof.
  intros Hf Hu Hfail.
  assert (Hno : succeeded (http e) = false).
  { destruct Hfail as [[detail ->]|(r & -> & Hs)]; [reflexivity|].
    simpl. destruct (http_error_msg_error r Hs) as [msg ->]. reflexivity. }
  destruct (upload_handler_no_success py_repr e f w Hf (or_introl Hno))
    as (res & evs & Heq & Hp & _).
  rewrite Hu in Hp. rewrite Heq. cbn [snd logged messages last_processed_file trace].
  assert (Hposts : posts (trace w ++ opening f ++ evs) = posts (trace w) ++ [(u, form f)]).
  { by rewrite !posts_app, Hp. }
  repeat split; [exact Hposts|].
  intros e' f' u' Hn Hu'.
  rewrite upload_handler_posts; [|simpl; by rewrite Hn].
  rewrite trace_logged, Hposts, Hu'. by rewrite <- app_assoc.
Qed.

(** C4, as the code has it: a 2xx answer whose body decodes to a non-empty
    [dict] in which ["data"] is absent or is a [dict] is shown without any
    error, with ["No summary available."] in place of a missing
    [python_summary] and ["No lean data found."] in place of a missing
    [lean]. *)
Theorem missing_fields_degrade_to_placeholders (e : env) (f : UploadedFile)
    (w : world) (l : list message) (u : string) (r : Response)
    (m d : gmap string json) :
  messages w = Some l ->
  last_processed_file w <> Some (name f) ->
  configured e = Some u ->
  http e = PostReturns r ->
  (200 <= status_code r < 300)%Z ->
  json_body r = JsonOk (JObj m) ->
  size m <> 0 ->
  default (JObj ∅) (m !! "data") = JObj d ->
  fst (upload_handler py_repr e (Some f) w) = Raise RerunException
  /\ messages (snd (upload_handler py_repr e (Some f) w))
     = Some (l ++ [Message "assistant"
                     (JStr ("✅ Analysis Complete! "
                            +:+ py_str py_repr
                                  (default (JStr "No summary available.")
                                     (d !! "python_summary"))
                            +:+ "."))])
  /\ trace (snd (upload_handler py_repr e (Some f) w))
     = trace w ++ opening f ++ [RequestsPost u (form f) (PostReturns r)]
         ++ lean_display (default (JStr "No lean data found.") (d !! "lean"))
  /\ errors (trace (snd (upload_handler py_repr e (Some f) w))) = errors (trace w).
Proof.
  intros Hl Hf Hu Hh Hs Hj Hm Hd.
  apply Nat.eqb_neq in Hm.
  rewrite (upload_handler_success py_repr e f w l u r m d
             Hl Hf Hu Hh (http_error_msg_2xx r Hs) Hj Hm Hd).
  repeat split. cbn [snd trace]. rewrite !errors_app.
  change (errors (opening f)) with (@nil string).
  change (errors [RequestsPost u (form f) (PostReturns r)]) with (@nil string).
  change (errors (lean_display (default (JStr "No lean data found.") (d !! "lean"))))
    with (@nil string).
  by rewrite !app_nil_r.
Qed.


(** C6: submitting two files with distinct names, neither of them the last
    processed one, with the endpoint configured, makes exactly two outbound
    calls, whatever the endpoint answers; each is a POST whose [files] has
    the single part ['file'] carrying that file's name, bytes and type. *)
Theorem distinct_files_make_two_calls (e1 e2 : env) (f1 f2 : UploadedFile)
    (w : world) (u1 u2 : string) :
  name f1 <> name f2 ->
  last_processed_file w <> Some (name f1) ->
  last_processed_file w <> Some (name f2) ->
  configured e1 = Some u1 ->
  configured e2 = Some u2 ->
  posts (trace (snd (upload_handler py_repr e2 (Some f2)
                       (snd (upload_handler py_repr e1 (Some f1) w)))))
  = posts (trace w)
      ++ [(u1, [("file", (name f1, getvalue f1, type f1))]);
          (u2, [("file", (name f2, getvalue f2, type f2))])].
Proof.
  intros Hn Hf1 Hf2 Hu1 Hu2.
  assert (Hlp : last_processed_file (snd (upload_handler py_repr e1 (Some f1) w))
                <> Some (name f2)).
  { destruct (upload_handler_trace py_repr e1 f1 w Hf1)
      as (res & ms & lp & evs & -> & _ & [->| ->]); simpl; congruence. }
  rewrite (upload_handler_posts py_repr e2 f2 _ Hlp), Hu2.
  rewrite (upload_handler_posts py_repr e1 f1 w Hf1), Hu1.
  by rewrite <- app_assoc.
Qed.

(** C8: for a 2xx answer that decodes to JSON whose [data] object has no
    [python_summary], the handler does not fail: it appends the assistant
    message built from the placeholder ["No summary available."]. *)
Theorem missing_summary_uses_placeholder (e : env) (f : UploadedFile)
    (w : world) (l : list message) (u : string) (r : Response)
    (m d : gmap string json) :
  messages w = Some l ->
  last_processed_file w <> Some (name f) ->
  configured e = Some u ->
  http e = PostReturns r ->
  (200 <= status_code r < 300)%Z ->
  json_body r = JsonOk (JObj m) ->
  m !! "data" = Some (JObj d) ->
  d !! "python_summary" = None ->
  fst (upload_handler py_repr e (Some f) w) = Raise RerunException
  /\ messages (snd (upload_handler py_repr e (Some f) w))
     = Some (l ++ [Message "assistant"
                     (JStr "✅ Analysis Complete! No summary available..")]).
Proof.
  intros Hl Hf Hu Hh Hs Hj Hm Hd.
  rewrite (upload_handler_success py_repr e f w l u r m d
             Hl Hf Hu Hh (http_error_msg_2xx r Hs) Hj
             (size_lookup_Some m _ _ Hm)); [|by rewrite Hm].
  unfold summary_of. rewrite Hd. split; reflexivity.
Qed.

(** C10, as the code has it: in every state a session can reach,
    [last_processed_file] is the name of the file of the most recent
    submission that the code took as a success (an answer without 4xx/5xx
    status whose body decodes to a non-empty [dict] in which ["data"] is
    absent or a [dict]), and absent when there was none; the upload handler
    assigns it only on that path (file not yet processed, endpoint
    configured, answer taken as a success) and otherwise leaves it as it was;
    the chat-input handler never changes it. *)
Theorem last_processed_file_is_last_success :
  (forall runs : list inputs,
      last_processed_file (session py_repr new_session runs)
      = last_success (trace (session py_repr new_session runs)))
  /\ (forall (e : env) (uploaded_file : option UploadedFile) (w : world),
        last_processed_file (snd (upload_handler py_repr e uploaded_file w))
          = last_processed_file w
        \/ exists f u,
             uploaded_file = Some f /\ last_processed_file w <> Some (name f)
             /\ configured e = Some u /\ succeeded (http e) = true
             /\ last_processed_file (snd (upload_handler py_repr e uploaded_file w))
                = Some (name f))
  /\ (forall (prompt : option string) (w : world),
        last_processed_file (snd (chat_input_handler prompt w))
        = last_processed_file w).
Proof.
  split; [|split].
  - intros runs. by apply (session_consistent py_repr new_session runs).
  - apply upload_handler_assigns.
  - intros prompt w.
    by destruct (chat_input_handler_trace prompt w) as (res & ms & evs & -> & _).
Qed.

End Claims.

(** C3, at the failing input: with the endpoint configured and
    [requests.post] raising "Connection refused" before any response exists,
    the [except] clause of [run_analysis] reports the error detail and then
    fails itself on the unbound local [response]: the call raises
    [UnboundLocalError] instead of returning [None]. *)
Theorem connection_error_leaves_response_unbound :
  fst (run_analysis (endpoint_answers (PostRaises "Connection refused")) race1 greeted)
  = Raise (UnboundLocalError "response")
  /\ errors (trace (snd (run_analysis (endpoint_answers (PostRaises "Connection refused"))
                           race1 greeted)))
     = ["An error occurred while contacting the analysis workflow: Connection refused"].
Proof. split; reflexivity. Qed.

(** C7: when [MAKE_WEBHOOK_URL] is absent, [run_analysis] makes no outbound
    call, shows exactly one error, returns [None], and leaves the session
    state as it was. *)
Theorem no_endpoint_no_call (e : env) (f : UploadedFile) (w : world) :
  MAKE_WEBHOOK_URL e = None ->
  fst (run_analysis e f w) = Ok JNull
  /\ posts (trace (snd (run_analysis e f w))) = posts (trace w)
  /\ errors (trace (snd (run_analysis e f w)))
     = errors (trace w)
         ++ ["Webhook URL is not configured. Please set it in your Streamlit secrets."]
  /\ messages (snd (run_analysis e f w)) = messages w
  /\ last_processed_file (snd (run_analysis e f w)) = last_processed_file w.
Proof.
  intros H.
  assert (Hc : configured e = None) by (unfold configured; by rewrite H).
  rewrite (run_analysis_not_configured e f w Hc).
  cbn [fst snd]. rewrite trace_logged, posts_app, errors_app.
  repeat split. apply app_nil_r.
Qed.

(** C9: for every prompt the widget hands over (a text that is not empty)
    and every session state with its message log, the chat-input handler
    appends exactly two messages, the user's text and then the fixed
    assistant reply, makes no outbound call, leaves [last_processed_file]
    alone and ends by asking for a rerun. *)
Theorem prompt_appends_text_then_fixed_reply (prompt : string) (w : world)
    (l : list message) :
  prompt <> "" ->
  messages w = Some l ->
  fst (chat_input_handler (Some prompt) w) = Raise RerunException
  /\ messages (snd (chat_input_handler (Some prompt) w))
     = Some (l ++ [Message "user" (JStr prompt);
                   Message "assistant" (JStr "Follow-up questions are not yet implemented.")])
  /\ posts (trace (snd (chat_input_handler (Some prompt) w))) = posts (trace w)
  /\ last_processed_file (snd (chat_input_handler (Some prompt) w))
     = last_processed_file w.
Proof.
  intros Hp Hl. rewrite (chat_input_handler_prompt prompt w l Hp Hl).
  cbn [fst snd messages trace last_processed_file]. rewrite posts_app.
  repeat split. apply app_nil_r.
Qed.

(** ** The claims at concrete inputs *)

(** C1 fails as stated: a new session, [race1.drf] uploaded, the endpoint
    answering 200 with the three-horses body.  The log then holds the
    greeting and the summary and nothing else; no message carries the lean
    payload [{"a": 1}]. *)
Lemma lean_payload_is_not_logged :
  messages (run_script some_repr new_session
              (upload race1 (PostReturns (answer 200 "OK" three_horses))))
  = Some [greeting;
          Message "assistant" (JStr "✅ Analysis Complete! 3 horses analyzed.")]
  /\ ~ In (JObj {[ "a" := JInt 1 ]})
         (map content
            (default []
               (messages (run_script some_repr new_session
                            (upload race1 (PostReturns (answer 200 "OK" three_horses))))))).
Proof.
  assert (H : messages (run_script some_repr new_session
                          (upload race1 (PostReturns (answer 200 "OK" three_horses))))
              = Some [greeting;
                      Message "assistant" (JStr "✅ Analysis Complete! 3 horses analyzed.")])
    by (vm_compute; reflexivity).
  split; [exact H|]. rewrite H. simpl.
  intros [Hg|[Hs|[]]]; discriminate.
Qed.

Lemma success_logs_summary_and_shows_lean_witness :
  messages (snd (upload_handler some_repr
                   (endpoint_answers (PostReturns (answer 200 "OK" three_horses)))
                   (Some race1) greeted))
  = Some [greeting;
          Message "assistant" (JStr "✅ Analysis Complete! 3 horses analyzed.")].
Proof.
  refine (proj1 (proj2
    (success_logs_summary_and_shows_lean some_repr
       (endpoint_answers (PostReturns (answer 200 "OK" three_horses)))
       race1 greeted [greeting] hook (answer 200 "OK" three_horses)
       _ _ _ _ _ _))).
  - reflexivity.
  - discriminate.
  - reflexivity.
  - reflexivity.
  - simpl; lia.
  - reflexivity.
Defined.

(** C2 fails as stated: status 300 is not 2xx, yet [raise_for_status] lets
    it through; with a body that decodes, the submission is taken as a
    success: a message is appended and [last_processed_file] is set. *)
Lemma status_300_is_taken_as_success :
  ~ (200 <= status_code (answer 300 "Multiple Choices" three_horses) < 300)%Z
  /\ messages (snd (upload_handler some_repr
                      (endpoint_answers
                         (PostReturns (answer 300 "Multiple Choices" three_horses)))
                      (Some race1) greeted))
     = Some [greeting;
             Message "assistant" (JStr "✅ Analysis Complete! 3 horses analyzed.")]
  /\ last_processed_file
       (snd (upload_handler some_repr
               (endpoint_answers
                  (PostReturns (answer 300 "Multiple Choices" three_horses)))
               (Some race1) greeted))
     = Some "race1.drf".
Proof.
  split; [simpl; lia|]. split; vm_compute; reflexivity.
Qed.

Lemma failed_submission_can_be_retried_witness :
  messages (snd (upload_handler some_repr
                   (endpoint_answers (PostRaises "Connection refused"))
                   (Some race1) greeted))
  = messages greeted
  /\ last_processed_file
       (snd (upload_handler some_repr
               (endpoint_answers (PostRaises "Connection refused"))
               (Some race1) greeted))
     = None.
Proof.
  pose proof (failed_submission_can_be_retried some_repr
                (endpoint_answers (PostRaises "Connection refused"))
                race1 greeted hook) as H.
  destruct H as (Hm & Hl & _).
  - discriminate.
  - reflexivity.
  - left. exists "Connection refused". reflexivity.
  - split; [exact Hm|exact Hl].
Defined.

(** C4 fails as stated, in three ways.  A 200 answer whose body is the empty
    object is false as a result: the handler stops without any message,
    placeholder or error.  A 200 answer whose body is the list [[1]] is true
    but has no [get]: the handler fails with [AttributeError].  A 200 answer
    whose body is not JSON goes through the [except] clause: two errors are
    shown and nothing is appended. *)
Lemma unrecognised_bodies_show_no_placeholder :
  upload_handler some_repr (endpoint_answers (PostReturns (answer 200 "OK" (JObj ∅))))
    (Some race1) greeted
  = (Ok tt,
     logged greeted
       (opening race1
          ++ [RequestsPost hook (form race1) (PostReturns (answer 200 "OK" (JObj ∅)))]))
  /\ upload_handler some_repr
       (endpoint_answers (PostReturns (answer 200 "OK" (JArr [JInt 1]))))
       (Some race1) greeted
     = (Raise (AttributeError "'list' object has no attribute 'get'"),
        logged greeted
          (opening race1
             ++ [RequestsPost hook (form race1)
                   (PostReturns (answer 200 "OK" (JArr [JInt 1])))]))
  /\ upload_handler some_repr (endpoint_answers (PostReturns not_json))
       (Some race1) greeted
     = (Ok tt,
        logged greeted
          (opening race1
             ++ [RequestsPost hook (form race1) (PostReturns not_json);
                 StError "An error occurred while contacting the analysis workflow: Expecting value: line 1 column 1 (char 0)";
                 StError "Response Body: <html>Accepted</html>"])).
Proof. repeat split; vm_compute; reflexivity. Qed.

Lemma missing_fields_degrade_to_placeholders_witness :
  messages (snd (upload_handler some_repr
                   (endpoint_answers
                      (PostReturns (answer 200 "OK" (JObj {[ "status" := JStr "done" ]}))))
                   (Some race1) greeted))
  = Some [greeting;
          Message "assistant" (JStr "✅ Analysis Complete! No summary available..")]
  /\ trace (snd (upload_handler some_repr
                   (endpoint_answers
                      (PostReturns (answer 200 "OK" (JObj {[ "status" := JStr "done" ]}))))
                   (Some race1) greeted))
     = opening race1
         ++ [RequestsPost hook (form race1)
               (PostReturns (answer 200 "OK" (JObj {[ "status" := JStr "done" ]})))]
         ++ lean_display (JStr "No lean data found.").
Proof.
  pose proof (missing_fields_degrade_to_placeholders some_repr
                (endpoint_answers
                   (PostReturns (answer 200 "OK" (JObj {[ "status" := JStr "done" ]}))))
                race1 greeted [greeting] hook
                (answer 200 "OK" (JObj {[ "status" := JStr "done" ]}))
                {[ "status" := JStr "done" ]} ∅) as H.
  destruct H as (_ & Hm & Ht & _).
  - reflexivity.
  - discriminate.
  - reflexivity.
  - reflexivity.
  - simpl; lia.
  - reflexivity.
  - vm_compute; discriminate.
  - reflexivity.
  - split; [exact Hm|exact Ht].
Defined.



Lemma distinct_files_make_two_calls_witness :
  posts (trace (snd (upload_handler some_repr
                       (endpoint_answers (PostRaises "Connection refused"))
                       (Some race2)
                       (snd (upload_handler some_repr
                               (endpoint_answers (PostReturns (answer 200 "OK" three_horses)))
                               (Some race1) greeted)))))
  = [(hook, [("file", ("race1.drf", getvalue race1, "application/octet-stream"))]);
     (hook, [("file", ("race2.drf", getvalue race2, "application/octet-stream"))])].
Proof.
  refine (distinct_files_make_two_calls some_repr
            (endpoint_answers (PostReturns (answer 200 "OK" three_horses)))
            (endpoint_answers (PostRaises "Connection refused"))
            race1 race2 greeted hook hook _ _ _ _ _).
  - discriminate.
  - discriminate.
  - discriminate.
  - reflexivity.
  - reflexivity.
Defined.

Lemma no_endpoint_no_call_witness :
  fst (run_analysis no_endpoint race1 greeted) = Ok JNull
  /\ posts (trace (snd (run_analysis no_endpoint race1 greeted))) = [].
Proof.
  pose proof (no_endpoint_no_call no_endpoint race1 greeted eq_refl) as (Hr & Hp & _).
  split; [exact Hr|exact Hp].
Defined.

Lemma missing_summary_uses_placeholder_witness :
  messages (snd (upload_handler some_repr
                   (endpoint_answers (PostReturns (answer 200 "OK" lean_only)))
                   (Some race1) greeted))
  = Some [greeting;
          Message "assistant" (JStr "✅ Analysis Complete! No summary available..")].
Proof.
  refine (proj2
    (missing_summary_uses_placeholder some_repr
       (endpoint_answers (PostReturns (answer 200 "OK" lean_only)))
       race1 greeted [greeting] hook (answer 200 "OK" lean_only)
       {[ "data" := JObj {[ "lean" := JArr [JInt 1] ]} ]}
       {[ "lean" := JArr [JInt 1] ]} _ _ _ _ _ _ _ _)).
  - reflexivity.
  - discriminate.
  - reflexivity.
  - reflexivity.
  - simpl; lia.
  - reflexivity.
  - reflexivity.
  - reflexivity.
Defined.

Lemma prompt_appends_text_then_fixed_reply_witness :
  messages (snd (chat_input_handler (Some "How many favorites won?") greeted))
  = Some [greeting;
          Message "user" (JStr "How many favorites won?");
          Message "assistant" (JStr "Follow-up questions are not yet implemented.")].
Proof.
  refine (proj1 (proj2
    (prompt_appends_text_then_fixed_reply "How many favorites won?" greeted [greeting]
       _ _))).
  - discriminate.
  - reflexivity.
Defined.

(** * Further properties of the script *)

(** ** Shapes of the handlers' results *)

Section Shapes.

Variable py_repr : json -> string.

Lemma summary_textual (d : gmap string json) : textual (summary_of py_repr d).
Proof. split; [by left|]. eexists; reflexivity. Qed.

(** A handler run that is not a success ends in something other than a
    rerun request and leaves the session state alone. *)
Lemma upload_handler_failure (e : env) (f : UploadedFile) (w : world) :
  last_processed_file w <> Some (name f) ->
  succeeded (http e) = false \/ configured e = None ->
  exists res evs,
    upload_handler py_repr e (Some f) w = (res, logged w (opening f ++ evs))
    /\ res <> Raise RerunException.
Proof.
  intros Hf Hno.
  rewrite (upload_handler_fresh _ _ _ _ Hf). unfold bind.
  destruct (configured e) as [u|] eqn:Hu.
  2:{ rewrite (run_analysis_not_configured _ _ _ Hu). simpl.
      do 2 eexists. rewrite logged_logged. split; [reflexivity|discriminate]. }
  destruct Hno as [Hno|Hno]; [|discriminate].
  destruct (http e) as [detail|class detail|r] eqn:Hh.
  { rewrite (run_analysis_post_raises _ _ _ _ _ Hu Hh).
    do 2 eexists. rewrite logged_logged. split; [reflexivity|discriminate]. }
  { rewrite (run_analysis_post_raises_other _ _ _ _ _ _ Hu Hh).
    do 2 eexists. rewrite logged_logged. split; [reflexivity|discriminate]. }
  destruct (http_error_msg r) as [msg|] eqn:Hs.
  { rewrite (run_analysis_http_error _ _ _ _ _ _ Hu Hh Hs). simpl.
    do 2 eexists. rewrite logged_logged. split; [reflexivity|discriminate]. }
  destruct (json_body r) as [v|detail|detail|class detail] eqn:Hj.
  - rewrite (run_analysis_json _ _ _ _ _ _ Hu Hh Hs Hj).
    simpl in Hno. rewrite Hs, Hj in Hno.
    destruct (truthy v) eqn:Ht.
    + destruct (show_results_rejected py_repr f
                  (logged (logged w (opening f)) [RequestsPost u (form f) (PostReturns r)])
                  v Ht Hno) as [detail ->].
      do 2 eexists. rewrite logged_logged. split; [reflexivity|discriminate].
    + simpl. do 2 eexists. rewrite logged_logged. split; [reflexivity|discriminate].
  - rewrite (run_analysis_json_request_error _ _ _ _ _ _ Hu Hh Hs Hj). simpl.
    do 2 eexists. rewrite logged_logged. split; [reflexivity|discriminate].
  - rewrite (run_analysis_json_value_error _ _ _ _ _ _ Hu Hh Hs Hj).
    do 2 eexists. rewrite logged_logged. split; [reflexivity|discriminate].
  - rewrite (run_analysis_json_other_error _ _ _ _ _ _ _ Hu Hh Hs Hj).
    do 2 eexists. rewrite logged_logged. split; [reflexivity|discriminate].
Qed.

(** With the log in place, the handler either leaves log and
    [last_processed_file] as they are, or appends the summary, records the
    file and asks for a rerun. *)
Lemma upload_handler_shape (e : env) (uploaded_file : option UploadedFile)
    (w : world) (l : list message) :
  messages w = Some l ->
  (messages (snd (upload_handler py_repr e uploaded_file w)) = Some l
   /\ last_processed_file (snd (upload_handler py_repr e uploaded_file w))
      = last_processed_file w
   /\ fst (upload_handler py_repr e uploaded_file w) <> Raise RerunException)
  \/ (exists f d,
        uploaded_file = Some f
        /\ fst (upload_handler py_repr e uploaded_file w) = Raise RerunException
        /\ messages (snd (upload_handler py_repr e uploaded_file w))
           = Some (l ++ [summary_of py_repr d])
        /\ last_processed_file (snd (upload_handler py_repr e uploaded_file w))
           = Some (name f)).
Proof.
  intros Hl.
  destruct uploaded_file as [f|]; [|left; repeat split; [done|discriminate]].
  destruct (decide (last_processed_file w = Some (name f))) as [Hsame|Hf].
  { left. rewrite (upload_handler_skip _ _ _ _ Hsame). repeat split; [done|discriminate]. }
  destruct (succeeded (http e)) eqn:Hok; [destruct (configured e) as [u|] eqn:Hu|].
  - right. destruct (succeeded_inv _ Hok) as (r & m & d & Hh & Hs & Hj & Hm & Hd).
    exists f, d.
    rewrite (upload_handler_success py_repr e f w l u r m d Hl Hf Hu Hh Hs Hj Hm Hd).
    repeat split.
  - left. destruct (upload_handler_failure e f w Hf (or_intror Hu))
      as (res & evs & -> & Hres). repeat split; done.
  - left. destruct (upload_handler_failure e f w Hf (or_introl Hok))
      as (res & evs & -> & Hres). repeat split; done.
Qed.

(** The chat-input handler leaves the log as it is or appends the prompt and
    the fixed reply. *)
Lemma chat_input_handler_log (p : option string) (w : world) (l : list message) :
  messages w = Some l ->
  messages (snd (chat_input_handler p w)) = Some l
  \/ exists s,
       messages (snd (chat_input_handler p w))
       = Some (l ++ [Message "user" (JStr s);
                     Message "assistant" (JStr "Follow-up questions are not yet implemented.")]).
Proof.
  intros Hl. destruct (truthy_text p) as [s|] eqn:Hp.
  - right. exists s. destruct w as [ms lp tr]. simpl in Hl. subst ms.
    unfold chat_input_handler. rewrite Hp. run. by rewrite <- app_assoc.
  - left. by rewrite (chat_input_handler_idle _ _ Hp).
Qed.

Lemma summary_not_greeting (d : gmap string json) :
  summary_of py_repr d <> greeting.
Proof. unfold summary_of, greeting. by intros [=]. Qed.

Lemma no_secrets_not_configured (e : env) :
  secrets e = NoSecrets -> configured e = None.
Proof. intros H. unfold configured, MAKE_WEBHOOK_URL. by rewrite H. Qed.

(** A run without a secrets store: only the first lines of the script. *)
Lemma run_script_no_secrets (w : world) (i : inputs) :
  secrets (in_env i) = NoSecrets -> run_script py_repr w i = logged w banner.
Proof. intros H. unfold run_script. by rewrite (script_no_secrets _ _ _ _ _ H). Qed.

(** A run of the script, seen from the world in which the upload handler
    starts. *)
Lemma run_script_unfold (w : world) (i : inputs) :
  secrets (in_env i) <> NoSecrets ->
  run_script py_repr w i =
    match upload_handler py_repr (in_env i) (in_file i) (settled w) with
    | (Ok _, w1) => snd (chat_input_handler (in_prompt i) w1)
    | (Raise _, w1) => w1
    end.
Proof.
  intros Hs. unfold run_script. rewrite (script_spec _ _ _ _ _ Hs).
  unfold bind, settled.
  by destruct (upload_handler py_repr (in_env i) (in_file i) _) as [[[]|ex] w1].
Qed.

(** What a run of the script that gets past the secrets does to the log: it
    keeps what was there (the greeting, if nothing was) and adds at most two
    messages of its own, none of them the greeting. *)
Lemma run_script_log (w : world) (i : inputs) :
  secrets (in_env i) <> NoSecrets ->
  exists suffix,
    messages (run_script py_repr w i)
    = Some (default [greeting] (messages w) ++ suffix)
    /\ length suffix <= 2 /\ Forall textual suffix
    /\ Forall (fun m => m <> greeting) suffix.
Proof.
  intros Hs. rewrite (run_script_unfold _ _ Hs).
  set (l0 := default [greeting] (messages w)).
  assert (H0 : messages (settled w) = Some l0) by reflexivity.
  destruct (upload_handler_shape (in_env i) (in_file i) (settled w) l0 H0)
    as [(Hm & _ & Hres)|(f & d & _ & Hres & Hm & _)];
    destruct (upload_handler py_repr (in_env i) (in_file i) (settled w))
      as [[[]|ex] w1]; simpl in Hm, Hres; try discriminate.
  - destruct (chat_input_handler_log (in_prompt i) w1 l0 Hm) as [->|[s ->]].
    + exists []. rewrite app_nil_r.
      repeat split; [simpl; lia|constructor|constructor].
    + eexists. repeat split; [simpl; lia| |].
      * repeat constructor; eexists; reflexivity.
      * repeat constructor; discriminate.
  - exists []. rewrite app_nil_r.
    repeat split; [done|simpl; lia|constructor|constructor].
  - eexists. repeat split; [exact Hm|simpl; lia| |].
    + repeat constructor. apply summary_textual.
    + repeat constructor. apply summary_not_greeting.
Qed.

(** Whether or not the run gets past the secrets, a log that exists is
    kept. *)
Lemma run_script_keeps_log (w : world) (i : inputs) (l : list message) :
  messages w = Some l ->
  exists suffix,
    messages (run_script py_repr w i) = Some (l ++ suffix)
    /\ length suffix <= 2 /\ Forall textual suffix
    /\ Forall (fun m => m <> greeting) suffix.
Proof.
  intros Hl. destruct (secrets (in_env i)) as [|url] eqn:Hsec.
  - rewrite (run_script_no_secrets _ _ Hsec). exists [].
    cbn [logged messages]. rewrite app_nil_r.
    repeat split; [done|simpl; lia|constructor|constructor].
  - assert (Hs : secrets (in_env i) <> NoSecrets) by (rewrite Hsec; discriminate).
    destruct (run_script_log w i Hs) as (suffix & H & Hrest).
    exists suffix. rewrite H, Hl. by split.
Qed.

(** The outbound calls of a run of the script. *)
Lemma run_script_posts (w : world) (i : inputs) :
  posts (trace (run_script py_repr w i)) = posts (trace w) ++ due_call w i.
Proof.
  destruct (secrets (in_env i)) as [|url] eqn:Hsec.
  { rewrite (run_script_no_secrets _ _ Hsec), trace_logged, posts_app.
    rewrite (quiet_posts _ banner_quiet), app_nil_r.
    unfold due_call. rewrite (no_secrets_not_configured _ Hsec).
    destruct (in_file i) as [f|]; [|by rewrite app_nil_r].
    destruct (decide (last_processed_file w = Some (name f))); by rewrite app_nil_r. }
  assert (Hs : secrets (in_env i) <> NoSecrets) by (rewrite Hsec; discriminate).
  rewrite (run_script_unfold _ _ Hs).
  assert (H0 : posts (trace (settled w)) = posts (trace w)).
  { unfold settled. cbn [trace]. rewrite posts_app, (quiet_posts _ (preamble_quiet _)).
    apply app_nil_r. }
  assert (Hu : posts (trace (snd (upload_handler py_repr (in_env i) (in_file i) (settled w))))
               = posts (trace w) ++ due_call w i).
  { unfold due_call. destruct (in_file i) as [f|].
    - destruct (decide (last_processed_file w = Some (name f))) as [Hsame|Hf].
      + rewrite (upload_handler_skip py_repr (in_env i) f (settled w) Hsame).
        cbn [snd]. rewrite H0. by rewrite app_nil_r.
      + rewrite (upload_handler_posts py_repr (in_env i) f (settled w) Hf).
        by rewrite H0.
    - cbn [upload_handler ret snd]. rewrite H0. by rewrite app_nil_r. }
  destruct (upload_handler py_repr (in_env i) (in_file i) (settled w))
    as [[[]|ex] w1]; cbn [snd] in Hu; [|exact Hu].
  destruct (chat_input_handler_trace (in_prompt i) w1) as (res & ms & evs & -> & Hq).
  cbn [snd trace]. rewrite posts_app, (quiet_posts _ Hq), Hu. apply app_nil_r.
Qed.

(** What a run of the script does to [last_processed_file]. *)
Lemma run_script_last_processed_file (w : world) (i : inputs) :
  last_processed_file (run_script py_repr w i) = last_processed_file w
  \/ exists f u,
       in_file i = Some f /\ last_processed_file w <> Some (name f)
       /\ configured (in_env i) = Some u /\ succeeded (http (in_env i)) = true
       /\ last_processed_file (run_script py_repr w i) = Some (name f).
Proof.
  destruct (secrets (in_env i)) as [|url] eqn:Hsec.
  { left. by rewrite (run_script_no_secrets _ _ Hsec). }
  assert (Hs : secrets (in_env i) <> NoSecrets) by (rewrite Hsec; discriminate).
  rewrite (run_script_unfold _ _ Hs).
  pose proof (upload_handler_assigns py_repr (in_env i) (in_file i) (settled w)) as H.
  destruct (upload_handler py_repr (in_env i) (in_file i) (settled w))
    as [[[]|ex] w1]; cbn [snd] in H; [|exact H].
  destruct (chat_input_handler_trace (in_prompt i) w1) as (res & ms & evs & -> & _).
  exact H.
Qed.

End Shapes.

(** ** Sessions *)

Section Sessions.

Variable py_repr : json -> string.

Lemma session_cons (w : world) (i : inputs) (runs : list inputs) :
  session py_repr w (i :: runs) = session py_repr (run_script py_repr w i) runs.
Proof. reflexivity. Qed.

Lemma session_app (w : world) (runs1 runs2 : list inputs) :
  session py_repr w (runs1 ++ runs2)
  = session py_repr (session py_repr w runs1) runs2.
Proof. unfold session. apply fold_left_app. Qed.

Lemma session_log (runs : list inputs) (w : world) (l : list message) :
  messages w = Some l ->
  exists suffix,
    messages (session py_repr w runs) = Some (l ++ suffix)
    /\ length suffix <= 2 * length runs /\ Forall textual suffix
    /\ Forall (fun m => m <> greeting) suffix.
Proof.
  revert w l. induction runs as [|i runs IH]; intros w l Hl.
  - exists []. rewrite app_nil_r.
    repeat split; [done|simpl; lia|constructor|constructor].
  - rewrite session_cons.
    destruct (run_script_keeps_log py_repr w i l Hl) as (s1 & H1 & Hn1 & Ht1 & Hg1).
    destruct (IH _ _ H1) as (s2 & H2 & Hn2 & Ht2 & Hg2).
    exists (s1 ++ s2). rewrite H2, <- app_assoc.
    repeat split; [rewrite length_app; simpl length; lia| |];
      apply Forall_app; by split.
Qed.

(** Runs without a secrets store leave the log as it is. *)
Lemma session_no_secrets_log (runs : list inputs) (w : world) :
  Forall (fun j => secrets (in_env j) = NoSecrets) runs ->
  messages (session py_repr w runs) = messages w.
Proof.
  intros H. revert w. induction H as [|i runs Hi _ IH]; intros w; [done|].
  rewrite session_cons, IH. by rewrite (run_script_no_secrets _ _ _ Hi).
Qed.

Lemma session_textual (runs : list inputs) (w : world) :
  Forall textual (default [] (messages w)) ->
  Forall textual (default [] (messages (session py_repr w runs))).
Proof.
  revert w. induction runs as [|i runs IH]; intros w Hw; [exact Hw|].
  rewrite session_cons. apply IH.
  destruct (secrets (in_env i)) as [|url] eqn:Hsec.
  - by rewrite (run_script_no_secrets _ _ _ Hsec).
  - assert (Hs : secrets (in_env i) <> NoSecrets) by (rewrite Hsec; discriminate).
    destruct (run_script_log py_repr w i Hs) as (suffix & -> & _ & Ht & _).
    cbn [default]. apply Forall_app. split; [|exact Ht].
    destruct (messages w) as [l|]; [exact Hw|].
    repeat constructor. eexists; reflexivity.
Qed.

Lemma configured_nonempty (e : env) (u : string) : configured e = Some u -> u <> "".
Proof.
  unfold configured, truthy_text.
  destruct (MAKE_WEBHOOK_URL e) as [s|]; [|discriminate].
  destruct (String.eqb_spec s ""); [discriminate|]. by intros [= <-].
Qed.

Lemma due_call_shape (w : world) (i : inputs) :
  due_call w i = []
  \/ exists f u,
       in_file i = Some f /\ last_processed_file w <> Some (name f)
       /\ configured (in_env i) = Some u /\ due_call w i = [(u, form f)].
Proof.
  unfold due_call. destruct (in_file i) as [f|]; [|by left].
  destruct (decide (last_processed_file w = Some (name f))) as [|Hf]; [by left|].
  destruct (configured (in_env i)) as [u|] eqn:Hu; [|by left].
  right. by exists f, u.
Qed.

(** X1: the message log is append-only.  Whatever the runs of a session are
    given, the log they start from is a prefix of the log they end with, and
    each run adds at most two messages. *)
Theorem log_is_append_only (w : world) (runs : list inputs) (l : list message) :
  messages w = Some l ->
  exists suffix,
    messages (session py_repr w runs) = Some (l ++ suffix)
    /\ length suffix <= 2 * length runs.
Proof.
  intros Hl. destruct (session_log runs w l Hl) as (suffix & H & Hn & _).
  by exists suffix.
Qed.

(** X2: the greeting is stored once.  In a new session the log does not
    exist while the runs stop at the secrets lookup; the first run that gets
    past it stores the greeting as the first message; every later run keeps
    the log of that run as a prefix of its own, and no message after the
    first is the greeting again. *)
Theorem greeting_is_stored_once (before : list inputs) (i : inputs)
    (after : list inputs) :
  Forall (fun j => secrets (in_env j) = NoSecrets) before ->
  secrets (in_env i) <> NoSecrets ->
  messages (session py_repr new_session before) = None
  /\ exists s1 s2,
       messages (session py_repr new_session (before ++ [i])) = Some (greeting :: s1)
       /\ messages (session py_repr new_session (before ++ i :: after))
          = Some (greeting :: s1 ++ s2)
       /\ ~ In greeting (s1 ++ s2).
Proof.
  intros Hb Hi.
  pose proof (session_no_secrets_log before new_session Hb) as H0.
  split; [exact H0|].
  destruct (run_script_log py_repr (session py_repr new_session before) i Hi)
    as (s1 & H1 & _ & _ & Hg1).
  rewrite H0 in H1. cbn [default messages new_session] in H1.
  destruct (session_log after _ _ H1) as (s2 & H2 & _ & _ & Hg2).
  exists s1, s2. repeat split.
  - rewrite session_app. exact H1.
  - rewrite session_app, session_cons, H2. by rewrite <- app_assoc.
  - intros Hin. apply in_app_or in Hin.
    destruct Hin as [Hin|Hin].
    + rewrite Forall_forall in Hg1. apply (Hg1 greeting); [|reflexivity].
      by apply list_elem_of_In.
    + rewrite Forall_forall in Hg2. apply (Hg2 greeting); [|reflexivity].
      by apply list_elem_of_In.
Qed.

(** X3: every message a session ever holds was written by the script as a
    text, with role "assistant" or "user": no [dict] or [list] is ever put in
    the log, so the display loop never takes its [st.json] branch. *)
Theorem log_holds_only_text (runs : list inputs) :
  Forall textual (default [] (messages (session py_repr new_session runs)))
  /\ omap json_of (rendering (default [] (messages (session py_repr new_session runs))))
     = [].
Proof.
  assert (Ht : Forall textual
                 (default [] (messages (session py_repr new_session runs)))).
  { apply session_textual. constructor. }
  split; [exact Ht|].
  induction Ht as [|m l [_ [s Hs]] _ IH]; [reflexivity|].
  cbn [rendering flat_map app omap]. rewrite Hs. cbn. exact IH.
Qed.


(** X12: while the endpoint is not configured, a session makes no outbound
    call at all and never records a file as processed, whatever is uploaded
    or typed. *)
Theorem unconfigured_session_never_calls (w : world) (runs : list inputs) :
  Forall (fun i => configured (in_env i) = None) runs ->
  posts (trace (session py_repr w runs)) = posts (trace w)
  /\ last_processed_file (session py_repr w runs) = last_processed_file w.
Proof.
  intros H. revert w. induction H as [|i runs Hi _ IH]; intros w; [done|].
  rewrite session_cons.
  destruct (IH (run_script py_repr w i)) as [-> ->].
  split.
  - rewrite run_script_posts.
    destruct (due_call_shape w i) as [->|(f & u & _ & _ & Hu & _)];
      [apply app_nil_r|congruence].
  - destruct (run_script_last_processed_file py_repr w i)
      as [->|(f & u & _ & _ & Hu & _)]; [done|congruence].
Qed.

(** X13: every outbound call a session makes was due to one of its runs: it
    goes to the endpoint configured in that run, which is not empty, and
    carries exactly one part, named ['file'], holding the name, the bytes and
    the type of the file selected in that run; and a session makes no more
    calls than it has runs. *)
Theorem session_calls_carry_uploaded_files (runs : list inputs) :
  Forall (fun p =>
            exists i f,
              In i runs /\ in_file i = Some f
              /\ configured (in_env i) = Some (fst p) /\ fst p <> ""
              /\ snd p = [("file", (name f, getvalue f, type f))])
    (posts (trace (session py_repr new_session runs)))
  /\ length (posts (trace (session py_repr new_session runs))) <= length runs.
Proof.
  assert (G : forall (known : inputs -> Prop) (w : world),
    Forall (fun p =>
              exists i f,
                known i /\ in_file i = Some f
                /\ configured (in_env i) = Some (fst p) /\ fst p <> ""
                /\ snd p = [("file", (name f, getvalue f, type f))])
      (posts (trace w)) ->
    Forall (fun p =>
              exists i f,
                (known i \/ In i runs) /\ in_file i = Some f
                /\ configured (in_env i) = Some (fst p) /\ fst p <> ""
                /\ snd p = [("file", (name f, getvalue f, type f))])
      (posts (trace (session py_repr w runs)))
    /\ length (posts (trace (session py_repr w runs)))
       <= length (posts (trace w)) + length runs).
  { induction runs as [|i runs IH]; intros known w Hw.
    - split; [|simpl; lia].
      eapply Forall_impl; [exact Hw|].
      intros p (j & f & Hj & Hrest). exists j, f. split; [by left|exact Hrest].
    - rewrite session_cons.
      assert (Hstep :
        Forall (fun p =>
                  exists j f,
                    (known j \/ j = i) /\ in_file j = Some f
                    /\ configured (in_env j) = Some (fst p) /\ fst p <> ""
                    /\ snd p = [("file", (name f, getvalue f, type f))])
          (posts (trace (run_script py_repr w i)))
        /\ length (posts (trace (run_script py_repr w i)))
           <= length (posts (trace w)) + 1).
      { rewrite run_script_posts.
        assert (Hold :
          Forall (fun p =>
                    exists j f,
                      (known j \/ j = i) /\ in_file j = Some f
                      /\ configured (in_env j) = Some (fst p) /\ fst p <> ""
                      /\ snd p = [("file", (name f, getvalue f, type f))])
            (posts (trace w))).
        { eapply Forall_impl; [exact Hw|].
          intros p (j & f & Hj & Hrest). exists j, f. split; [by left|exact Hrest]. }
        destruct (due_call_shape w i) as [->|(f & u & Hfile & _ & Hu & ->)].
        - rewrite app_nil_r. split; [exact Hold|lia].
        - split; [|rewrite length_app; simpl; lia].
          apply Forall_app. split; [exact Hold|].
          constructor; [|constructor]. exists i, f.
          repeat split; [by right|exact Hfile|exact Hu|
                         exact (configured_nonempty _ _ Hu)]. }
      destruct Hstep as [Hwf Hlen].
      destruct (IH (fun j => known j \/ j = i) _ Hwf) as [Hwf' Hlen'].
      split; [|simpl length; lia].
      eapply Forall_impl; [exact Hwf'|].
      intros p (j & f & Hj & Hrest). exists j, f. split; [|exact Hrest].
      destruct Hj as [[Hj|Hj]|Hj]; [by left|right; left; by symmetry|right; by right]. }
  destruct (G (fun _ => False) new_session) as [Hwf Hlen]; [constructor|].
  split; [|simpl in Hlen; lia].
  eapply Forall_impl; [exact Hwf|].
  intros p (j & f & [[]|Hj] & Hrest). by exists j, f.
Qed.

End Sessions.

(** ** The handlers and [run_analysis], case by case *)

Section Cases.

Variable py_repr : json -> string.

Lemma upload_handler_success_state (e : env) (f : UploadedFile) (w : world)
    (l : list message) (u : string) :
  messages w = Some l ->
  last_processed_file w <> Some (name f) ->
  configured e = Some u ->
  succeeded (http e) = true ->
  exists d,
    fst (upload_handler py_repr e (Some f) w) = Raise RerunException
    /\ messages (snd (upload_handler py_repr e (Some f) w))
       = Some (l ++ [summary_of py_repr d])
    /\ last_processed_file (snd (upload_handler py_repr e (Some f) w)) = Some (name f).
Proof.
  intros Hl Hf Hu Hok.
  destruct (succeeded_inv _ Hok) as (r & m & d & Hh & Hs & Hj & Hm & Hd).
  exists d.
  rewrite (upload_handler_success py_repr e f w l u r m d Hl Hf Hu Hh Hs Hj Hm Hd).
  repeat split.
Qed.

(** X4: the upload handler is all or nothing.  For a file that is taken up
    with the endpoint configured, either the answer is a success, and the
    handler appends the summary, records the file and asks for a rerun; or it
    is not, and the handler neither appends a message, nor records the file,
    nor asks for a rerun. *)
Theorem upload_is_all_or_nothing (e : env) (f : UploadedFile) (w : world)
    (l : list message) (u : string) :
  messages w = Some l ->
  last_processed_file w <> Some (name f) ->
  configured e = Some u ->
  (succeeded (http e) = true
   /\ fst (upload_handler py_repr e (Some f) w) = Raise RerunException
   /\ (exists d, messages (snd (upload_handler py_repr e (Some f) w))
                 = Some (l ++ [summary_of py_repr d]))
   /\ last_processed_file (snd (upload_handler py_repr e (Some f) w)) = Some (name f))
  \/ (succeeded (http e) = false
      /\ fst (upload_handler py_repr e (Some f) w) <> Raise RerunException
      /\ messages (snd (upload_handler py_repr e (Some f) w)) = Some l
      /\ last_processed_file (snd (upload_handler py_repr e (Some f) w))
         = last_processed_file w).
Proof.
  intros Hl Hf Hu. destruct (succeeded (http e)) eqn:Hok.
  - left. destruct (upload_handler_success_state e f w l u Hl Hf Hu Hok)
      as (d & Hr & Hm & Hp).
    repeat split; [exact Hr|by exists d|exact Hp].
  - right. destruct (upload_handler_failure py_repr e f w Hf (or_introl Hok))
      as (res & evs & -> & Hres).
    repeat split; done.
Qed.


(** X7: a successful upload ends the run at once.  With a prompt handed over
    in the same run, the script stops at the rerun request of the upload
    handler: the summary is the only message appended, the prompt is not. *)
Theorem successful_upload_preempts_prompt (e : env) (f : UploadedFile)
    (prompt : option string) (w : world) (u : string) :
  last_processed_file w <> Some (name f) ->
  configured e = Some u ->
  succeeded (http e) = true ->
  fst (script py_repr e (Some f) prompt w) = Raise RerunException
  /\ (exists d, messages (snd (script py_repr e (Some f) prompt w))
                = Some (default [greeting] (messages w) ++ [summary_of py_repr d]))
  /\ last_processed_file (snd (script py_repr e (Some f) prompt w)) = Some (name f).
Proof.
  intros Hf Hu Hok. rewrite (script_spec _ _ _ _ _ (configured_secrets e u Hu)).
  unfold bind.
  destruct (upload_handler_success_state e f (settled w)
              (default [greeting] (messages w)) u eq_refl Hf Hu Hok)
    as (d & Hr & Hm & Hp).
  fold (settled w).
  destruct (upload_handler py_repr e (Some f) (settled w)) as [[[]|ex] w1];
    cbn [fst snd] in Hr, Hm, Hp |- *; [discriminate|].
  repeat split; [exact Hr|by exists d|exact Hp].
Qed.

(** X10: an answer without error status whose body decodes to a false value
    ([null], [false], [0], an empty text, list or object) is dropped in
    silence: the handler returns normally, shows no error, appends nothing
    and does not record the file. *)
Theorem false_result_is_dropped_silently (e : env) (f : UploadedFile)
    (w : world) (u : string) (r : Response) (v : json) :
  last_processed_file w <> Some (name f) ->
  configured e = Some u ->
  http e = PostReturns r ->
  ~ (400 <= status_code r < 600)%Z ->
  json_body r = JsonOk v ->
  truthy v = false ->
  upload_handler py_repr e (Some f) w
  = (Ok tt, logged w (opening f ++ [RequestsPost u (form f) (PostReturns r)])).
Proof.
  intros Hf Hu Hh Hs Hj Ht.
  rewrite (upload_handler_fresh py_repr e f w Hf). unfold bind.
  rewrite (run_analysis_json e f _ u r v Hu Hh (proj2 (http_error_msg_none r) Hs) Hj).
  rewrite Ht. unfold ret. by rewrite logged_logged.
Qed.

(** X11: an answer without error status whose body decodes to a true value
    that is not a [dict], or to a [dict] whose ["data"] is not a [dict],
    makes the handler fail with [AttributeError] before it has appended
    anything: log and [last_processed_file] stay as they were. *)
Theorem unexpected_shape_raises_attribute_error (e : env) (f : UploadedFile)
    (w : world) (u : string) (r : Response) (v : json) :
  last_processed_file w <> Some (name f) ->
  configured e = Some u ->
  http e = PostReturns r ->
  ~ (400 <= status_code r < 600)%Z ->
  json_body r = JsonOk v ->
  truthy v = true ->
  accepted v = false ->
  exists detail,
    upload_handler py_repr e (Some f) w
    = (Raise (AttributeError detail),
       logged w (opening f ++ [RequestsPost u (form f) (PostReturns r)])).
Proof.
  intros Hf Hu Hh Hs Hj Ht Ha.
  rewrite (upload_handler_fresh py_repr e f w Hf). unfold bind.
  rewrite (run_analysis_json e f _ u r v Hu Hh (proj2 (http_error_msg_none r) Hs) Hj).
  rewrite Ht.
  destruct (show_results_rejected py_repr f
              (logged (logged w (opening f)) [RequestsPost u (form f) (PostReturns r)])
              v Ht Ha) as [detail ->].
  exists detail. by rewrite logged_logged.
Qed.

(** X14: only the latest name is remembered.  After [f] and then a file [g]
    of another name have both been submitted with success, submitting [f]
    again calls the endpoint again. *)
Theorem only_last_name_is_remembered (e1 e2 e3 : env) (f g : UploadedFile)
    (w : world) (l : list message) (u1 u2 u3 : string) :
  messages w = Some l ->
  name f <> name g ->
  last_processed_file w <> Some (name f) ->
  configured e1 = Some u1 -> succeeded (http e1) = true ->
  configured e2 = Some u2 -> succeeded (http e2) = true ->
  configured e3 = Some u3 ->
  posts (trace (snd (upload_handler py_repr e3 (Some f)
                       (snd (upload_handler py_repr e2 (Some g)
                               (snd (upload_handler py_repr e1 (Some f) w)))))))
  = posts (trace w) ++ [(u1, form f); (u2, form g); (u3, form f)].
Proof.
  intros Hl Hn Hf Hu1 Hok1 Hu2 Hok2 Hu3.
  destruct (upload_handler_success_state e1 f w l u1 Hl Hf Hu1 Hok1)
    as (d1 & _ & Hm1 & Hp1).
  pose proof (upload_handler_posts py_repr e1 f w Hf) as Hc1. rewrite Hu1 in Hc1.
  set (w1 := snd (upload_handler py_repr e1 (Some f) w)) in *.
  assert (Hg : last_processed_file w1 <> Some (name g)) by (rewrite Hp1; congruence).
  destruct (upload_handler_success_state e2 g w1 _ u2 Hm1 Hg Hu2 Hok2)
    as (d2 & _ & Hm2 & Hp2).
  pose proof (upload_handler_posts py_repr e2 g w1 Hg) as Hc2. rewrite Hu2 in Hc2.
  set (w2 := snd (upload_handler py_repr e2 (Some g) w1)) in *.
  assert (Hf2 : last_processed_file w2 <> Some (name f)) by (rewrite Hp2; congruence).
  rewrite (upload_handler_posts py_repr e3 f w2 Hf2), Hu3, Hc2, Hc1.
  by rewrite <- !app_assoc.
Qed.

(** X15: a run with nothing to do only renders.  With the secrets store in
    place, no file selected, or the file that was processed last still
    selected, and no prompt, the script shows the header, the log, the
    uploader and the prompt box, makes no call, and leaves the session state
    as it is (the greeting stored if the log did not exist). *)
Theorem idle_run_only_renders (e : env) (uploaded_file : option UploadedFile)
    (prompt : option string) (w : world) :
  secrets e <> NoSecrets ->
  match uploaded_file with
  | Some f => last_processed_file w = Some (name f)
  | None => True
  end ->
  truthy_text prompt = None ->
  script py_repr e uploaded_file prompt w
  = (Ok tt,
     World (Some (default [greeting] (messages w))) (last_processed_file w)
       (trace w ++ preamble (default [greeting] (messages w))
          ++ [StChatInput "Ask a follow-up question..."])).
Proof.
  intros Hs Hfile Hp. rewrite (script_spec _ _ _ _ _ Hs). unfold bind.
  fold (settled w).
  assert (Hu : upload_handler py_repr e uploaded_file (settled w) = (Ok tt, settled w)).
  { destruct uploaded_file as [f|]; [|reflexivity].
    by apply upload_handler_skip. }
  rewrite Hu, (chat_input_handler_idle _ _ Hp).
  unfold logged, settled. cbn [messages last_processed_file trace].
  by rewrite <- app_assoc.
Qed.


(** X17: for every success answer whose [data] has a text [python_summary]
    and a [lean], the message appended is the text between
    ["✅ Analysis Complete! "] and a full stop, and the value given to
    [st.json] is the [lean] as it came. *)
Theorem summary_and_lean_are_passed_on (e : env) (f : UploadedFile) (w : world)
    (l : list message) (u : string) (r : Response) (m d : gmap string json)
    (s : string) (v : json) :
  messages w = Some l ->
  last_processed_file w <> Some (name f) ->
  configured e = Some u ->
  http e = PostReturns r ->
  ~ (400 <= status_code r < 600)%Z ->
  json_body r = JsonOk (JObj m) ->
  m !! "data" = Some (JObj d) ->
  d !! "python_summary" = Some (JStr s) ->
  d !! "lean" = Some v ->
  messages (snd (upload_handler py_repr e (Some f) w))
  = Some (l ++ [Message "assistant" (JStr ("✅ Analysis Complete! " +:+ s +:+ "."))])
  /\ omap json_of (trace (snd (upload_handler py_repr e (Some f) w)))
     = omap json_of (trace w) ++ [v]
  /\ last_processed_file (snd (upload_handler py_repr e (Some f) w)) = Some (name f).
Proof.
  intros Hl Hf Hu Hh Hs Hj Hm Hsum Hlean.
  rewrite (upload_handler_success py_repr e f w l u r m d
             Hl Hf Hu Hh (proj2 (http_error_msg_none r) Hs) Hj
             (size_lookup_Some m _ _ Hm)); [|by rewrite Hm].
  unfold summary_of. rewrite Hsum, Hlean. cbn [snd messages trace last_processed_file default py_str].
  repeat split. by rewrite omap_app.
Qed.

End Cases.

(** ** [run_analysis] and the display loop *)

Lemma http_error_msg_text (r : Response) :
  (400 <= status_code r < 600)%Z ->
  http_error_msg r
  = Some (pretty (status_code r)
            +:+ (if (status_code r <? 500)%Z then " Client Error: " else " Server Error: ")
            +:+ reason r +:+ " for url: " +:+ url r).
Proof.
  intros H. unfold http_error_msg.
  destruct (Z.leb_spec 400 (status_code r)), (Z.ltb_spec (status_code r) 500),
    (Z.leb_spec 500 (status_code r)), (Z.ltb_spec (status_code r) 600);
    simpl; try lia; reflexivity.
Qed.

(** X8: [run_analysis] never touches the session state and makes at most one
    outbound call.  Either it shows no error, and then the call was made and
    the result is what the call and the decoding gave: the decoded body of
    an answer without error status, or the exception, not a
    [RequestException], that [requests.post] or [response.json()] let
    through; or it shows an error, and then it returns [None] or fails on
    the unbound [response]. *)
Theorem run_analysis_reports_or_returns (e : env) (f : UploadedFile) (w : world) :
  exists res evs,
    run_analysis e f w = (res, logged w evs)
    /\ length (posts evs) <= 1
    /\ ((errors evs = []
         /\ exists u,
              configured e = Some u /\ posts evs = [(u, form f)]
              /\ match http e with
                 | PostReturns r =>
                     http_error_msg r = None
                     /\ match json_body r with
                        | JsonOk v => res = Ok v
                        | JsonRequestError _ => False
                        | JsonValueError d => res = Raise (ValueError d)
                        | JsonOtherError class d => res = Raise (OtherException class d)
                        end
                 | PostRaisesOther class d => res = Raise (OtherException class d)
                 | PostRaises _ => False
                 end)
        \/ (errors evs <> []
            /\ (res = Ok JNull \/ res = Raise (UnboundLocalError "response")))).
Proof.
  destruct (configured e) as [u|] eqn:Hu.
  2:{ rewrite (run_analysis_not_configured _ _ _ Hu). do 2 eexists.
      split; [reflexivity|]. split; [simpl; lia|]. right. split; [done|by left]. }
  destruct (http e) as [detail|class detail|r] eqn:Hh.
  { rewrite (run_analysis_post_raises _ _ _ _ _ Hu Hh). do 2 eexists.
    split; [reflexivity|]. split; [simpl; lia|]. right. split; [done|by right]. }
  { rewrite (run_analysis_post_raises_other _ _ _ _ _ _ Hu Hh). do 2 eexists.
    split; [reflexivity|]. split; [simpl; lia|]. left. split; [done|].
    by exists u. }
  destruct (http_error_msg r) as [msg|] eqn:Hs.
  { rewrite (run_analysis_http_error _ _ _ _ _ _ Hu Hh Hs). do 2 eexists.
    split; [reflexivity|]. split; [simpl; lia|]. right. split; [done|by left]. }
  destruct (json_body r) as [v|detail|detail|class detail] eqn:Hj.
  - rewrite (run_analysis_json _ _ _ _ _ _ Hu Hh Hs Hj). do 2 eexists.
    split; [reflexivity|]. split; [simpl; lia|]. left. split; [done|].
    by exists u.
  - rewrite (run_analysis_json_request_error _ _ _ _ _ _ Hu Hh Hs Hj). do 2 eexists.
    split; [reflexivity|]. split; [simpl; lia|]. right. split; [done|by left].
  - rewrite (run_analysis_json_value_error _ _ _ _ _ _ Hu Hh Hs Hj). do 2 eexists.
    split; [reflexivity|]. split; [simpl; lia|]. left. split; [done|].
    by exists u.
  - rewrite (run_analysis_json_other_error _ _ _ _ _ _ _ Hu Hh Hs Hj). do 2 eexists.
    split; [reflexivity|]. split; [simpl; lia|]. left. split; [done|].
    by exists u.
Qed.

(** X9: an answer with an HTTP error status is reported twice and returned
    as [None]: first the text of the [HTTPError] (status, "Client Error" for
    4xx or "Server Error" for 5xx, reason and URL), then the raw body of the
    response. *)
Theorem http_error_is_reported_with_body (e : env) (f : UploadedFile) (w : world)
    (u : string) (r : Response) :
  configured e = Some u ->
  http e = PostReturns r ->
  (400 <= status_code r < 600)%Z ->
  fst (run_analysis e f w) = Ok JNull
  /\ errors (trace (snd (run_analysis e f w)))
     = errors (trace w)
         ++ ["An error occurred while contacting the analysis workflow: "
               +:+ (pretty (status_code r)
                      +:+ (if (status_code r <? 500)%Z
                           then " Client Error: " else " Server Error: ")
                      +:+ reason r +:+ " for url: " +:+ url r);
             "Response Body: " +:+ text r].
Proof.
  intros Hu Hh Hs.
  rewrite (run_analysis_http_error e f w u _ r Hu Hh (http_error_msg_text r Hs)).
  cbn [fst snd]. rewrite trace_logged, errors_app. split; reflexivity.
Qed.

Lemma rendering_cons (m : message) (l : list message) :
  rendering (m :: l)
  = [StChatMessage (role m);
     if is_dict_or_list (content m) then StJson (content m) else StWrite (content m)]
    ++ rendering l.
Proof. reflexivity. Qed.

Lemma rendering_speakers (l : list message) :
  omap speaker_of (rendering l) = map role l.
Proof.
  induction l as [|m l IH]; [reflexivity|].
  rewrite rendering_cons, omap_app, IH.
  by destruct (is_dict_or_list (content m)).
Qed.

Lemma rendering_shown (l : list message) :
  omap shown_of (rendering l) = map content l.
Proof.
  induction l as [|m l IH]; [reflexivity|].
  rewrite rendering_cons, omap_app, IH.
  by destruct (is_dict_or_list (content m)).
Qed.

Lemma rendering_json (l : list message) :
  omap json_of (rendering l) = List.filter is_dict_or_list (map content l).
Proof.
  induction l as [|m l IH]; [reflexivity|].
  rewrite rendering_cons, omap_app, IH. cbn [map List.filter].
  by destruct (is_dict_or_list (content m)).
Qed.

(** X16: the display loop shows the log as it is, in order: one
    [st.chat_message] per message with its role, one [st.write] or [st.json]
    per message with its content, [st.json] for exactly the [dict] and
    [list] contents; it changes nothing in the session state and cannot
    fail. *)
Theorem display_shows_log_in_order (w : world) (l : list message) :
  messages w = Some l ->
  display_messages w = (Ok tt, logged w (rendering l))
  /\ omap speaker_of (rendering l) = map role l
  /\ omap shown_of (rendering l) = map content l
  /\ omap json_of (rendering l) = List.filter is_dict_or_list (map content l).
Proof.
  intros Hl. split; [|split; [apply rendering_speakers|
                              split; [apply rendering_shown|apply rendering_json]]].
  unfold display_messages, bind, get_messages. rewrite Hl. apply display_spec.
Qed.

(** ** The further properties at concrete inputs *)

Lemma log_is_append_only_witness :
  exists suffix,
    messages (session some_repr greeted
                [interaction (PostReturns (answer 200 "OK" three_horses)) (Some race1)
                   (Some "Who won?")])
    = Some ([greeting] ++ suffix)
    /\ length suffix <= 2 * 1.
Proof.
  exact (log_is_append_only some_repr greeted
           [interaction (PostReturns (answer 200 "OK" three_horses)) (Some race1)
              (Some "Who won?")]
           [greeting] eq_refl).
Defined.

Lemma upload_is_all_or_nothing_witness :
  last_processed_file
    (snd (upload_handler some_repr
            (endpoint_answers (PostReturns (answer 200 "OK" three_horses)))
            (Some race1) greeted))
  = Some "race1.drf".
Proof.
  pose proof (upload_is_all_or_nothing some_repr
                (endpoint_answers (PostReturns (answer 200 "OK" three_horses)))
                race1 greeted [greeting] hook) as H.
  destruct H as [(_ & _ & _ & H)|(Hno & _)].
  - reflexivity.
  - discriminate.
  - reflexivity.
  - exact H.
  - vm_compute in Hno. discriminate Hno.
Defined.


Lemma successful_upload_preempts_prompt_witness :
  fst (script some_repr (endpoint_answers (PostReturns (answer 200 "OK" three_horses)))
         (Some race1) (Some "Who won?") new_session)
  = Raise RerunException.
Proof.
  refine (proj1
    (successful_upload_preempts_prompt some_repr
       (endpoint_answers (PostReturns (answer 200 "OK" three_horses)))
       race1 (Some "Who won?") new_session hook _ _ _)).
  - discriminate.
  - reflexivity.
  - vm_compute; reflexivity.
Defined.

Lemma http_error_is_reported_with_body_witness :
  errors (trace (snd (run_analysis
                        (endpoint_answers (PostReturns (answer 404 "Not Found" JNull)))
                        race1 greeted)))
  = ["An error occurred while contacting the analysis workflow: 404 Client Error: Not Found for url: https://hook.example/drf";
     "Response Body: (body)"].
Proof.
  refine (proj2
    (http_error_is_reported_with_body
       (endpoint_answers (PostReturns (answer 404 "Not Found" JNull)))
       race1 greeted hook (answer 404 "Not Found" JNull) _ _ _)).
  - reflexivity.
  - reflexivity.
  - simpl; lia.
Defined.

Lemma false_result_is_dropped_silently_witness :
  upload_handler some_repr (endpoint_answers (PostReturns (answer 200 "OK" (JArr []))))
    (Some race1) greeted
  = (Ok tt,
     logged greeted
       (opening race1
          ++ [RequestsPost hook (form race1) (PostReturns (answer 200 "OK" (JArr [])))])).
Proof.
  refine (false_result_is_dropped_silently some_repr
            (endpoint_answers (PostReturns (answer 200 "OK" (JArr []))))
            race1 greeted hook (answer 200 "OK" (JArr [])) (JArr []) _ _ _ _ _ _).
  - discriminate.
  - reflexivity.
  - reflexivity.
  - simpl; lia.
  - reflexivity.
  - reflexivity.
Defined.

Lemma unexpected_shape_raises_attribute_error_witness :
  exists detail,
    upload_handler some_repr
      (endpoint_answers
         (PostReturns (answer 200 "OK" (JObj {[ "data" := JStr "queued" ]}))))
      (Some race1) greeted
    = (Raise (AttributeError detail),
       logged greeted
         (opening race1
            ++ [RequestsPost hook (form race1)
                  (PostReturns (answer 200 "OK" (JObj {[ "data" := JStr "queued" ]})))])).
Proof.
  refine (unexpected_shape_raises_attribute_error some_repr
            (endpoint_answers
               (PostReturns (answer 200 "OK" (JObj {[ "data" := JStr "queued" ]}))))
            race1 greeted hook
            (answer 200 "OK" (JObj {[ "data" := JStr "queued" ]}))
            (JObj {[ "data" := JStr "queued" ]}) _ _ _ _ _ _ _).
  - discriminate.
  - reflexivity.
  - reflexivity.
  - simpl; lia.
  - reflexivity.
  - vm_compute; reflexivity.
  - vm_compute; reflexivity.
Defined.

Lemma unconfigured_session_never_calls_witness :
  posts (trace (session some_repr new_session
                  [{| in_env := no_endpoint; in_file := Some race1; in_prompt := None |};
                   {| in_env := no_endpoint; in_file := Some race2;
                      in_prompt := Some "Who won?" |}]))
  = []
  /\ last_processed_file
       (session some_repr new_session
          [{| in_env := no_endpoint; in_file := Some race1; in_prompt := None |};
           {| in_env := no_endpoint; in_file := Some race2;
              in_prompt := Some "Who won?" |}])
     = None.
Proof.
  refine (unconfigured_session_never_calls some_repr new_session
            [{| in_env := no_endpoint; in_file := Some race1; in_prompt := None |};
             {| in_env := no_endpoint; in_file := Some race2;
                in_prompt := Some "Who won?" |}] _).
  repeat constructor.
Defined.

Lemma only_last_name_is_remembered_witness :
  posts (trace (snd (upload_handler some_repr
                       (endpoint_answers (PostReturns (answer 200 "OK" three_horses)))
                       (Some race1)
                       (snd (upload_handler some_repr
                               (endpoint_answers (PostReturns (answer 200 "OK" lean_only)))
                               (Some race2)
                               (snd (upload_handler some_repr
                                       (endpoint_answers
                                          (PostReturns (answer 200 "OK" three_horses)))
                                       (Some race1) greeted)))))))
  = [(hook, form race1); (hook, form race2); (hook, form race1)].
Proof.
  refine (only_last_name_is_remembered some_repr
            (endpoint_answers (PostReturns (answer 200 "OK" three_horses)))
            (endpoint_answers (PostReturns (answer 200 "OK" lean_only)))
            (endpoint_answers (PostReturns (answer 200 "OK" three_horses)))
            race1 race2 greeted [greeting] hook hook hook _ _ _ _ _ _ _ _).
  - reflexivity.
  - discriminate.
  - discriminate.
  - reflexivity.
  - vm_compute; reflexivity.
  - reflexivity.
  - vm_compute; reflexivity.
  - reflexivity.
Defined.

Lemma idle_run_only_renders_witness :
  script some_repr (endpoint_answers (PostRaises "Connection refused"))
    (Some race1) None (World (Some [greeting]) (Some "race1.drf") [])
  = (Ok tt,
     World (Some [greeting]) (Some "race1.drf")
       (preamble [greeting] ++ [StChatInput "Ask a follow-up question..."])).
Proof.
  refine (idle_run_only_renders some_repr
            (endpoint_answers (PostRaises "Connection refused"))
            (Some race1) None (World (Some [greeting]) (Some "race1.drf") []) _ _ _).
  - discriminate.
  - reflexivity.
  - reflexivity.
Defined.

Lemma display_shows_log_in_order_witness :
  omap json_of
    (rendering [greeting; Message "assistant" (JObj {[ "a" := JInt 1 ]})])
  = [JObj {[ "a" := JInt 1 ]}].
Proof.
  refine (proj2 (proj2 (proj2
    (display_shows_log_in_order
       (World (Some [greeting; Message "assistant" (JObj {[ "a" := JInt 1 ]})]) None [])
       [greeting; Message "assistant" (JObj {[ "a" := JInt 1 ]})] _)))).
  reflexivity.
Defined.

Lemma summary_and_lean_are_passed_on_witness :
  messages (snd (upload_handler some_repr
                   (endpoint_answers (PostReturns (answer 200 "OK" three_horses)))
                   (Some race1) greeted))
  = Some ([greeting]
            ++ [Message "assistant"
                  (JStr ("✅ Analysis Complete! " +:+ "3 horses analyzed" +:+ "."))]).
Proof.
  refine (proj1
    (summary_and_lean_are_passed_on some_repr
       (endpoint_answers (PostReturns (answer 200 "OK" three_horses)))
       race1 greeted [greeting] hook (answer 200 "OK" three_horses)
       {[ "data" := JObj (<[ "python_summary" := JStr "3 horses analyzed" ]>
                            {[ "lean" := JObj {[ "a" := JInt 1 ]} ]}) ]}
       (<[ "python_summary" := JStr "3 horses analyzed" ]>
          {[ "lean" := JObj {[ "a" := JInt 1 ]} ]})
       "3 horses analyzed" (JObj {[ "a" := JInt 1 ]})
       _ _ _ _ _ _ _ _ _)).
  - reflexivity.
  - discriminate.
  - reflexivity.
  - reflexivity.
  - simpl; lia.
  - reflexivity.
  - reflexivity.
  - reflexivity.
  - reflexivity.
Defined.


Lemma greeting_is_stored_once_witness :
  messages (session some_repr new_session
              [{| in_env := no_secrets; in_file := Some race1; in_prompt := None |}])
  = None
  /\ exists s1 s2,
       messages (session some_repr new_session
                   ([{| in_env := no_secrets; in_file := Some race1; in_prompt := None |}]
                      ++ [interaction (PostReturns (answer 200 "OK" three_horses))
                            (Some race1) None]))
       = Some (greeting :: s1)
       /\ messages (session some_repr new_session
                      ([{| in_env := no_secrets; in_file := Some race1;
                           in_prompt := None |}]
                         ++ interaction (PostReturns (answer 200 "OK" three_horses))
                              (Some race1) None
                         :: [interaction (PostRaises "Connection refused")
                               (Some race1) (Some "Who won?")]))
          = Some (greeting :: s1 ++ s2)
       /\ ~ In greeting (s1 ++ s2).
Proof.
  refine (greeting_is_stored_once some_repr
            [{| in_env := no_secrets; in_file := Some race1; in_prompt := None |}]
            (interaction (PostReturns (answer 200 "OK" three_horses)) (Some race1) None)
            [interaction (PostRaises "Connection refused") (Some race1) (Some "Who won?")]
            _ _).
  - repeat constructor.
  - discriminate.
Defined.


(** C10 fails with success as the specification words it ("2xx with valid
    JSON body").  A new session in which [race1.drf] is answered 200 with the
    empty object: the submission is such a success, yet
    [last_processed_file] stays unset.  A new session in which it is
    answered 300 with the three-horses body: no such success has happened,
    yet [last_processed_file] is [race1.drf]. *)
Lemma last_processed_file_differs_from_spec_success :
  (spec_last_success
     (trace (session some_repr new_session
               [upload race1 (PostReturns (answer 200 "OK" (JObj ∅)))]))
   = Some "race1.drf"
   /\ last_processed_file
        (session some_repr new_session
           [upload race1 (PostReturns (answer 200 "OK" (JObj ∅)))])
      = None)
  /\ (spec_last_success
        (trace (session some_repr new_session
                  [upload race1
                     (PostReturns (answer 300 "Multiple Choices" three_horses))]))
      = None
      /\ last_processed_file
           (session some_repr new_session
              [upload race1 (PostReturns (answer 300 "Multiple Choices" three_horses))])
         = Some "race1.drf").
Proof. repeat split; vm_compute; reflexivity. Qed.
